(** * VQE with parallel QPUs: a model of [tutorial_vqe_parallel.py]

  The tutorial is one linear script.  Everything it computes is
  delegated to PennyLane, NumPy, matplotlib and the clock; the script
  only sequences the calls.  The model therefore keeps the script as a
  program in a small monad (module namespace and library state threaded
  through, exceptions propagated, every library call and every line of
  console output recorded in order) and takes the libraries as a
  parameter: a [Runtime] answers each call. *)

From Stdlib Require Import ZArith QArith Qabs List String Ascii Bool Lia Lqa.
From Stdlib Require Import DecimalString.
From Stdlib Require Import PrimFloat FloatOps SpecFloat.
Import ListNotations.

Set Warnings "-inexact-float".
Set Implicit Arguments.
Local Open Scope string_scope.

(** ** Python values the script prints or formats *)

Module Py.

(** [str(n)] for a non-negative integer. *)
Definition str_nat (n : nat) : string := NilZero.string_of_uint (Nat.to_uint n).

Definition str_N (n : N) : string := NilZero.string_of_uint (N.to_uint n).

(** [str(l)] for a list of integers: ["[15, 15]"]. *)
Fixpoint join (sep : string) (l : list string) : string :=
  match l with
  | [] => EmptyString
  | [x] => x
  | x :: rest => x ++ sep ++ join sep rest
  end.

Definition str_list (l : list nat) : string :=
  "[" ++ join ", " (map str_nat l) ++ "]".

(** Rounding to the nearest integer, ties to even: the rounding of
    Python's fixed-point formatting. *)
Definition round_half_even (q : Q) : Z :=
  let n := Qnum q in
  let d := Zpos (Qden q) in
  let f := (n / d)%Z in
  let r := (n mod d)%Z in
  match (2 * r ?= d)%Z with
  | Lt => f
  | Gt => (f + 1)%Z
  | Eq => if Z.even f then f else (f + 1)%Z
  end.

Definition pad2 (n : N) : string :=
  if (n <? 10)%N then "0" ++ str_N n else str_N n.

(** The digits of ["{:.2f}"] for a sign and an exact magnitude. *)
Definition format_2f_abs (neg : bool) (a : Q) : string :=
  let h := Z.to_N (round_half_even (a * 100)) in
  (if neg then "-" else EmptyString) ++ str_N (h / 100) ++ "." ++ pad2 (h mod 100).

(** ["{0:.2f}".format(q)] for an exact value. *)
Definition format_2f_Q (q : Q) : string :=
  format_2f_abs (Qnum q <? 0)%Z (Qabs q).

(** The exact value [m * 2^e] of a finite binary64 number. *)
Definition SF2Q (m : positive) (e : Z) : Q :=
  match e with
  | Zneg p => Qmake (Zpos m) (Pos.pow 2 p)
  | _ => inject_Z (Zpos m * 2 ^ e)
  end.

(** ["{:.2f}".format(x)] for a binary64 float: the exact binary value
    is rounded, ties to even, to two decimal places. *)
Definition format_2f (x : float) : string :=
  match Prim2SF x with
  | S754_zero s => format_2f_abs s 0
  | S754_infinity s => if s then "-inf" else "inf"
  | S754_nan => "nan"
  | S754_finite s m e => format_2f_abs s (SF2Q m e)
  end.

Definition str_Z (z : Z) : string := NilZero.string_of_int (Z.to_int z).

(** [10^k] for any integer [k]. *)
Definition pow10 (k : Z) : Q :=
  match k with
  | Zneg p => Qmake 1 (Pos.pow 10 p)
  | _ => inject_Z (10 ^ k)
  end.

(** The integer [k] with [10^k <= x < 10^(k+1)], for [x > 0]. *)
Fixpoint magnitude (fuel : nat) (x : Q) (k : Z) : Z :=
  match fuel with
  | O => k
  | S fuel' =>
    if Qle_bool 10 x then magnitude fuel' (Qred (x / 10)) (k + 1)
    else if Qle_bool 1 x then k
    else magnitude fuel' (Qred (x * 10)) (k - 1)
  end.

Definition floor (q : Q) : Z := (Qnum q / Zpos (Qden q))%Z.

(** The decimals that read back as the float [m * 2^e]: those between
  the midpoints to its neighbours, the midpoints themselves when [m]
  is even. *)
Definition reads_back (m : positive) (e : Z) (c : Q) : bool :=
  let x := SF2Q m e in
  let up := SF2Q 1 (e - 1) in
  let down := if (Pos.eqb m 4503599627370496 && Z.ltb (-1074) e)%bool
              then SF2Q 1 (e - 2) else up in
  let lo := Qred (x - down) in
  let hi := Qred (x + up) in
  match m with
  | xO _ => Qle_bool lo c && Qle_bool c hi
  | _ => negb (Qle_bool c lo) && negb (Qle_bool hi c)
  end.

(** The shortest decimal [d * 10^p] with at most [n] digits, [n] tried
  upwards, that reads back as the float; of two such, the closer. *)
Fixpoint shortest (tries : nat) (n : Z) (m : positive) (e : Z) (k : Z)
  : Z * Z :=
  let x := SF2Q m e in
  let p := (k - n + 1)%Z in
  let scale := pow10 p in
  let q := Qred (x / scale) in
  let f := floor q in
  let okf := reads_back m e (inject_Z f * scale) in
  let okc := reads_back m e (inject_Z (f + 1) * scale) in
  let below := Qred (q - inject_Z f) in
  let above := Qred (inject_Z (f + 1) - q) in
  match tries with
  | O => (f, p)
  | S tries' =>
    if (okf && okc)%bool then
      match Qcompare below above with
      | Lt => (f, p)
      | Gt => ((f + 1)%Z, p)
      | Eq => if Z.even f then (f, p) else ((f + 1)%Z, p)
      end
    else if okf then (f, p)
    else if okc then ((f + 1)%Z, p)
    else shortest tries' (n + 1) m e k
  end.

(** Trailing zeros of the digits moved into the exponent. *)
Fixpoint strip (fuel : nat) (d p : Z) : Z * Z :=
  match fuel with
  | O => (d, p)
  | S fuel' => if ((d mod 10 =? 0) && negb (d =? 0))%Z%bool
               then strip fuel' (d / 10)%Z (p + 1)%Z else (d, p)
  end.

Fixpoint zeros (n : nat) : string :=
  match n with O => EmptyString | S n' => "0" ++ zeros n' end.

(** The digits [ds], read as [0.ds * 10^decpt], in the layout of
  [repr]: exponent notation when [decpt <= -4] or [decpt > 16]. *)
Definition layout (ds : string) (decpt : Z) : string :=
  let nd := Z.of_nat (String.length ds) in
  if ((decpt <=? -4) || (16 <? decpt))%Z%bool then
    let ex := (decpt - 1)%Z in
    let mant := match ds with
                | String c EmptyString => String c EmptyString
                | String c rest => String c ("." ++ rest)
                | EmptyString => EmptyString
                end in
    let a := Z.abs ex in
    mant ++ "e" ++ (if (ex <? 0)%Z then "-" else "+")
         ++ (if (a <? 10)%Z then "0" else EmptyString) ++ str_Z a
  else if (decpt <=? 0)%Z then "0." ++ zeros (Z.to_nat (- decpt)) ++ ds
  else if (nd <=? decpt)%Z then ds ++ zeros (Z.to_nat (decpt - nd)) ++ ".0"
  else substring 0 (Z.to_nat decpt) ds ++ "."
       ++ substring (Z.to_nat decpt) (Z.to_nat (nd - decpt)) ds.

(** [str(x)] and [repr(x)] for a binary64 float. *)
Definition str_float (x : float) : string :=
  match Prim2SF x with
  | S754_zero s => if s then "-0.0" else "0.0"
  | S754_infinity s => if s then "-inf" else "inf"
  | S754_nan => "nan"
  | S754_finite s m e =>
    let k := magnitude 700 (SF2Q m e) 0 in
    let (d0, p0) := shortest 17 1 m e k in
    let (d, p) := strip 20 d0 p0 in
    let ds := str_Z d in
    (if s then "-" else EmptyString)
      ++ layout ds (Z.of_nat (String.length ds) + p)
  end.

(** The exponent [k] with [d = 2^k], when there is one. *)
Fixpoint log2_exact (d : positive) : option Z :=
  match d with
  | xH => Some 0%Z
  | xO d' => option_map Z.succ (log2_exact d')
  | xI _ => None
  end.

(** The binary64 number nearest to the exact value [q], ties to even:
    [q] itself when it is the value of a float.  A value [n / 2^k] is
    rounded as the floating-point unit rounds; any other value, which no
    float has, as the quotient of its numerator and denominator. *)
Definition binary64 (q : Q) : float :=
  let r := Qred q in
  match log2_exact (Qden r) with
  | Some k => SF2Prim (binary_normalize prec emax (Qnum r) (- k) false)
  | None =>
      (SF2Prim (binary_normalize prec emax (Qnum r) 0 false)
       / SF2Prim (binary_normalize prec emax (Zpos (Qden r)) 0 false))%float
  end.

(** [range(n)] *)
Definition range (n : nat) : list nat := seq 0 n.

(** [enumerate(l)] *)
Definition enumerate {A} (l : list A) : list (nat * A) :=
  combine (seq 0 (List.length l)) l.

(** The line feed of ["\n"]. *)
Definition nl : string := String (ascii_of_nat 10) EmptyString.

End Py.

(** ** The libraries' values *)

(** The types of the values that PennyLane and NumPy hand to the script.
  The script never looks inside them. *)
Class LibTypes : Type := {
  Hamiltonian : Type;   (* qml.Hamiltonian *)
  Device : Type;        (* a device returned by qml.device *)
  Cost : Type;          (* a qml.VQECost object *)
  Energy : Type;        (* the value of an evaluated cost *)
  Param : Type;         (* an entry of the array of rotation angles *)
  LibExn : Type         (* an exception raised inside a library *)
}.

Inductive result (E A : Type) : Type :=
  | Returned (a : A)
  | Raised (e : E).
Arguments Returned {E A} a.
Arguments Raised {E A} e.

Section Script.

Context {T : LibTypes}.

(** *** The state-preparation circuit *)

Inductive Operation : Type :=
  | BasisState (n : list Z) (wires : list Z)
  | RY (phi : Param) (wires : Z)
  | CNOT (wires : list Z).

(** [circuit(param, wires)]: the operations it queues, in order. *)
Definition circuit (param : Param) (wires : list Z) : list Operation :=
  [ BasisState [1; 1; 0; 0]%Z [0; 1; 2; 3]%Z;
    RY param 2;
    CNOT [2; 3]%Z;
    CNOT [2; 0]%Z;
    CNOT [3; 1]%Z ].

(** *** Library calls *)

(** The calls the script makes into its libraries, indexed by the type
    of what they return.  [cost_call e p parallel] is the evaluation
    [e(p, parallel=parallel)] of a cost object.  A reading of
    [time.time()] is kept as the exact value of the float it returns.
    [plt_plot]
    has [x = None] for the form [plt.plot(y, ...)] with one array. *)
Inductive Call : Type -> Type :=
  | generate_hamiltonian (mol_name mol_geo_file : string)
      (mol_charge multiplicity : Z) (basis_set : string)
      (n_active_electrons n_active_orbitals : Z) : Call (Hamiltonian * Z)
  | qml_device (name device : string) : Call Device
  | np_load (file : string) : Call (list Param)
  | VQECost (ansatz : Param -> list Z -> list Operation)
      (hamiltonian : Hamiltonian) (devices : list Device) : Call Cost
  | cost_call (e : Cost) (param : Param) (parallel : bool) : Call Energy
  | time_time : Call Q
  | plt_plot (x : option (list float)) (y : list Energy)
      (linewidth : float) (marker : string) : Call unit
  | plt_title (label : string) (fontsize : Z) : Call unit
  | plt_xlabel (label : string) (fontsize : Z) : Call unit
  | plt_ylabel (label : string) (fontsize : Z) : Call unit
  | plt_grid (b : bool) : Call unit.

(** What a run leaves behind, in order: library calls with their
    results, and lines printed on the console. *)
Inductive Event : Type :=
  | EvCall {X : Type} (c : Call X) (r : result LibExn X)
  | EvPrint (line : string).

(** The libraries and the clock, as the script sees them: each call is
    answered, with a value or an exception, in a state of the outside
    world that the answer may change. *)
Class Runtime : Type := {
  LibState : Type;
  lib_call : forall X, Call X -> LibState -> result LibExn X * LibState;
  n_ops : Hamiltonian -> nat         (* len(h.ops) *)
}.

Context {R : Runtime}.

(** *** Module namespace *)

(** The module-level names the script assigns; [None] is a name not
    yet bound.  The names bound by the [import] statements ([time],
    [np], [qml], [qchem], [plt]) are not part of the record: the model
    starts after the imports, and the script never rebinds them. *)
Record Globals : Type := {
  data : option (list (float * string));
  hamiltonians : option (list Hamiltonian);
  devs_4 : option (list Device);
  devs_7 : option (list Device);
  devs : option (list Device);
  params : option (list Param);
  energies : option (list Cost);
  surface : option (list Energy);
  t_seq : option Q;
  t_par : option Q
}.

Definition unbound : Globals :=
  {| data := None; hamiltonians := None; devs_4 := None; devs_7 := None;
     devs := None; params := None; energies := None; surface := None;
     t_seq := None; t_par := None |}.

Definition set_data v g :=
  {| data := Some v; hamiltonians := hamiltonians g; devs_4 := devs_4 g;
     devs_7 := devs_7 g; devs := devs g; params := params g;
     energies := energies g; surface := surface g; t_seq := t_seq g;
     t_par := t_par g |}.
Definition set_hamiltonians v g :=
  {| data := data g; hamiltonians := Some v; devs_4 := devs_4 g;
     devs_7 := devs_7 g; devs := devs g; params := params g;
     energies := energies g; surface := surface g; t_seq := t_seq g;
     t_par := t_par g |}.
Definition set_devs_4 v g :=
  {| data := data g; hamiltonians := hamiltonians g; devs_4 := Some v;
     devs_7 := devs_7 g; devs := devs g; params := params g;
     energies := energies g; surface := surface g; t_seq := t_seq g;
     t_par := t_par g |}.
Definition set_devs_7 v g :=
  {| data := data g; hamiltonians := hamiltonians g; devs_4 := devs_4 g;
     devs_7 := Some v; devs := devs g; params := params g;
     energies := energies g; surface := surface g; t_seq := t_seq g;
     t_par := t_par g |}.
Definition set_devs v g :=
  {| data := data g; hamiltonians := hamiltonians g; devs_4 := devs_4 g;
     devs_7 := devs_7 g; devs := Some v; params := params g;
     energies := energies g; surface := surface g; t_seq := t_seq g;
     t_par := t_par g |}.
Definition set_params v g :=
  {| data := data g; hamiltonians := hamiltonians g; devs_4 := devs_4 g;
     devs_7 := devs_7 g; devs := devs g; params := Some v;
     energies := energies g; surface := surface g; t_seq := t_seq g;
     t_par := t_par g |}.
Definition set_energies v g :=
  {| data := data g; hamiltonians := hamiltonians g; devs_4 := devs_4 g;
     devs_7 := devs_7 g; devs := devs g; params := params g;
     energies := Some v; surface := surface g; t_seq := t_seq g;
     t_par := t_par g |}.
Definition set_surface v g :=
  {| data := data g; hamiltonians := hamiltonians g; devs_4 := devs_4 g;
     devs_7 := devs_7 g; devs := devs g; params := params g;
     energies := energies g; surface := Some v; t_seq := t_seq g;
     t_par := t_par g |}.
Definition set_t_seq v g :=
  {| data := data g; hamiltonians := hamiltonians g; devs_4 := devs_4 g;
     devs_7 := devs_7 g; devs := devs g; params := params g;
     energies := energies g; surface := surface g; t_seq := Some v;
     t_par := t_par g |}.
Definition set_t_par v g :=
  {| data := data g; hamiltonians := hamiltonians g; devs_4 := devs_4 g;
     devs_7 := devs_7 g; devs := devs g; params := params g;
     energies := energies g; surface := surface g; t_seq := t_seq g;
     t_par := Some v |}.

(** *** The monad of the script *)

(** Exceptions that reach the script: its own ([NameError] on an
    unbound name, [IndexError] on a subscript out of range,
    [ZeroDivisionError]) and those raised inside a library. *)
Inductive exn : Type :=
  | NameError (name : string)
  | IndexError
  | ZeroDivisionError
  | LibraryError (e : LibExn).

Record State : Type := { globals : Globals; lib : LibState }.

Record Run (A : Type) : Type := {
  outcome : result exn A;
  final : State;
  events : list Event
}.

Definition M (A : Type) : Type := State -> Run A.

Definition ret {A} (a : A) : M A :=
  fun s => {| outcome := Returned a; final := s; events := [] |}.

Definition raise {A} (e : exn) : M A :=
  fun s => {| outcome := Raised e; final := s; events := [] |}.

Definition bind {A B} (m : M A) (k : A -> M B) : M B :=
  fun s =>
    let r := m s in
    match outcome r with
    | Returned a =>
        let r' := k a (final r) in
        {| outcome := outcome r'; final := final r';
           events := events r ++ events r' |}
    | Raised e =>
        {| outcome := Raised e; final := final r; events := events r |}
    end.

(** A library call: the runtime answers, the call and its answer are
    recorded, an exception raised by the library is raised in the
    script. *)
Definition call {X} (c : Call X) : M X :=
  fun s =>
    let a := lib_call c (lib s) in
    {| outcome := match fst a with
                  | Returned x => Returned x
                  | Raised e => Raised (LibraryError e)
                  end;
       final := {| globals := globals s; lib := snd a |};
       events := [EvCall c (fst a)] |}.

Definition print (line : string) : M unit :=
  fun s => {| outcome := Returned tt; final := s; events := [EvPrint line] |}.

(** Reading a module-level name. *)
Definition lookup {A} (name : string) (field : Globals -> option A) : M A :=
  fun s =>
    {| outcome := match field (globals s) with
                  | Some v => Returned v
                  | None => Raised (NameError name)
                  end;
       final := s; events := [] |}.

(** Binding a module-level name. *)
Definition assign (set : Globals -> Globals) : M unit :=
  fun s =>
    {| outcome := Returned tt;
       final := {| globals := set (globals s); lib := lib s |};
       events := [] |}.

(** [l[i]] for [i >= 0]. *)
Definition subscript {A} (l : list A) (i : nat) : M A :=
  match nth_error l i with
  | Some a => ret a
  | None => raise IndexError
  end.

End Script.

Declare Scope script_scope.
Delimit Scope script_scope with script.
Notation "x <- m ;; k" := (bind m (fun x => k))
  (at level 61, m at next level, right associativity) : script_scope.
Notation "' p <- m ;; k" := (bind m (fun p => k))
  (at level 61, p pattern, m at next level, right associativity) : script_scope.
Notation "m ;; k" := (bind m (fun _ => k))
  (at level 61, right associativity) : script_scope.

(** ** The script *)

Section Program.

Context {T : LibTypes} {R : Runtime}.
Local Open Scope script_scope.

(** A list comprehension [[f x for x in l]]. *)
Fixpoint mapM {A B} (f : A -> M B) (l : list A) : M (list B) :=
  match l with
  | [] => ret []
  | x :: rest =>
      y <- f x ;;
      ys <- mapM f rest ;;
      ret (y :: ys)
  end.

(** A [for] loop over [l] whose body updates the local [acc]. *)
Fixpoint for_each {A S} (l : list A) (body : A -> S -> M S) (acc : S) : M S :=
  match l with
  | [] => ret acc
  | x :: rest =>
      acc' <- body x acc ;;
      for_each rest body acc'
  end.

(** The literal bound to [data]: atomic separations (ångström) and the
    corresponding files, in the order they are written. *)
Definition data_dict : list (float * string) :=
  [ (0.3%float, "vqe_parallel/h2_0.30.xyz");
    (0.5%float, "vqe_parallel/h2_0.50.xyz");
    (0.7%float, "vqe_parallel/h2_0.70.xyz");
    (0.9%float, "vqe_parallel/h2_0.90.xyz");
    (1.1%float, "vqe_parallel/h2_1.10.xyz");
    (1.3%float, "vqe_parallel/h2_1.30.xyz");
    (1.5%float, "vqe_parallel/h2_1.50.xyz");
    (1.7%float, "vqe_parallel/h2_1.70.xyz");
    (1.9%float, "vqe_parallel/h2_1.90.xyz");
    (2.1%float, "vqe_parallel/h2_2.10.xyz") ].

(** [data.keys()] and [data.items()] of a dict kept as its items in
    insertion order. *)
Definition keys {K V} (d : list (K * V)) : list K := map fst d.
Definition items {K V} (d : list (K * V)) : list (K * V) := d.

(** Keys compare with [==] on floats: all different, strictly
  increasing. *)
Fixpoint distinct (l : list float) : bool :=
  match l with
  | [] => true
  | x :: rest => negb (existsb (PrimFloat.eqb x) rest) && distinct rest
  end.

Fixpoint increasing (l : list float) : bool :=
  match l with
  | x :: (y :: _) as rest => PrimFloat.ltb x y && increasing rest
  | _ => true
  end.

(** One iteration of the loop of [calculate_surface]. *)
Definition surface_step (parallel : bool) (ie : nat * Cost)
    (s : list Energy) : M (list Energy) :=
  let (i, e) := ie in
  d <- lookup "data" data ;;
  k <- subscript (keys d) i ;;
  print ("Running for molecular separation " ++ Py.str_float k ++ " Å") ;;
  ps <- lookup "params" params ;;
  p <- subscript ps i ;;
  v <- call (cost_call e p parallel) ;;
  ret (s ++ [v])%list.

(** [calculate_surface(parallel)].  The elapsed time is kept as the
    exact difference of the two clock readings, which is their
    difference in binary64 whenever [t1 / 2 <= t0 <= 2 * t1]. *)
Definition calculate_surface (parallel : bool) : M (list Energy * Q) :=
  let s := [] in
  t0 <- call time_time ;;
  es <- lookup "energies" energies ;;
  s <- for_each (Py.enumerate es) (surface_step parallel) s ;;
  t1 <- call time_time ;;
  print ("Evaluation time: " ++ Py.format_2f_Q (t1 - t0) ++ " s") ;;
  ret (s, t1 - t0).

(** [a / b] on floats: raises on a zero divisor, and divides in
    binary64 otherwise.  [a] and [b] are the exact values of the two
    floats. *)
Definition true_div (a b : Q) : M float :=
  if Qeq_bool b 0 then raise ZeroDivisionError
  else ret (Py.binary64 a / Py.binary64 b)%float.

(** The module body, top to bottom. *)
Definition script : M unit :=
  assign (set_data data_dict) ;;
  d <- lookup "data" data ;;
  hs <- mapM (fun '(separation, file) =>
                r <- call (generate_hamiltonian (Py.str_float separation) file
                             0 1 "sto-3g" 2 2) ;;
                ret (fst r))
             (items d) ;;
  assign (set_hamiltonians hs) ;;
  hs <- lookup "hamiltonians" hamiltonians ;;
  print (Py.str_list (map n_ops hs)) ;;
  d4 <- mapM (fun _ => call (qml_device "forest.qvm" "Aspen-4-4Q-E"))
             (Py.range 8) ;;
  assign (set_devs_4 d4) ;;
  d7 <- mapM (fun _ => call (qml_device "forest.qvm" "Aspen-7-4Q-C"))
             (Py.range 7) ;;
  assign (set_devs_7 d7) ;;
  d4 <- lookup "devs_4" devs_4 ;;
  d7 <- lookup "devs_7" devs_7 ;;
  assign (set_devs (d4 ++ d7)%list) ;;
  ps <- call (np_load "vqe_parallel/RY_params.npy") ;;
  assign (set_params ps) ;;
  hs <- lookup "hamiltonians" hamiltonians ;;
  es <- mapM (fun h =>
                ds <- lookup "devs" devs ;;
                call (VQECost circuit h ds))
             hs ;;
  assign (set_energies es) ;;
  print "Evaluating the potential energy surface sequentially" ;;
  '(s, t) <- calculate_surface false ;;
  assign (set_surface s) ;;
  assign (set_t_seq t) ;;
  print (Py.nl ++ "Evaluating the potential energy surface in parallel") ;;
  '(s, t) <- calculate_surface true ;;
  assign (set_surface s) ;;
  assign (set_t_par t) ;;
  ts <- lookup "t_seq" t_seq ;;
  tp <- lookup "t_par" t_par ;;
  q <- true_div ts tp ;;
  print ("Speedup: " ++ Py.format_2f q) ;;
  s <- lookup "surface" surface ;;
  call (plt_plot None s 2.2%float "o") ;;
  call (plt_title "Potential energy surface for molecular hydrogen" 12) ;;
  call (plt_xlabel "Atomic separation (Å)" 16) ;;
  call (plt_ylabel "Ground state energy (Ha)" 16) ;;
  call (plt_grid true).

(** The state in which the interpreter starts the module. *)
Definition start (l : LibState) : State := {| globals := unbound; lib := l |}.

End Program.

(** ** A simulated runtime

  A small deterministic stand-in for the libraries, to run the script
  on: a clock that advances by one second per library call answered
  (fifteen per sequential evaluation, eight per parallel one), energies
  in thousandths that differ by one unit between the two modes, a file
  system given by the list of files present, and a QVM server that is
  up or down. *)

Module Sim.

#[export] Instance types : LibTypes := {|
  Hamiltonian := string;
  Device := string * nat;
  Cost := string * nat;
  Energy := Z;
  Param := Z;
  LibExn := string
|}.

Record World : Type := {
  ticks : nat;
  qvm_up : bool;
  files : list string
}.

Definition tick (n : nat) (w : World) : World :=
  {| ticks := n + ticks w; qvm_up := qvm_up w; files := files w |}.

Definition present (f : string) (w : World) : bool :=
  existsb (String.eqb f) (files w).

Definition answer (X : Type) (c : Call X) (w : World)
    : result string X * World :=
  match c in Call X return result string X * World with
  | generate_hamiltonian _ file _ _ _ _ _ =>
      if present file w then (Returned (file, 4%Z), tick 1 w)
      else (Raised "FileNotFoundError", tick 1 w)
  | qml_device _ device =>
      if qvm_up w then (Returned (device, ticks w), tick 1 w)
      else (Raised "ConnectionError", tick 1 w)
  | np_load file =>
      if present file w
      then (Returned [11; 12; 13; 14; 15; 16; 17; 18; 19; 20]%Z, tick 1 w)
      else (Raised "FileNotFoundError", tick 1 w)
  | VQECost _ h ds => (Returned (h, List.length ds), tick 1 w)
  | cost_call e p parallel =>
      if qvm_up w
      then (Returned (1000 * p - Z.of_nat (String.length (fst e))
                        + (if parallel then 1 else 0))%Z,
            tick (if parallel then 8 else 15) w)
      else (Raised "ConnectionError", tick 1 w)
  | time_time => (Returned (inject_Z (Z.of_nat (ticks w))), tick 1 w)
  | plt_plot _ _ _ _ => (Returned tt, tick 1 w)
  | plt_title _ _ => (Returned tt, tick 1 w)
  | plt_xlabel _ _ => (Returned tt, tick 1 w)
  | plt_ylabel _ _ => (Returned tt, tick 1 w)
  | plt_grid _ => (Returned tt, tick 1 w)
  end.

#[export] Instance runtime : Runtime := {|
  LibState := World;
  lib_call := answer;
  n_ops := fun _ => 15%nat
|}.

(** Every file of the tutorial present, the QVM up. *)
Definition ready : World :=
  {| ticks := 0; qvm_up := true;
     files := "vqe_parallel/RY_params.npy" :: map snd data_dict |}.

(** The geometry files present but the parameter file missing. *)
Definition no_params : World :=
  {| ticks := 0; qvm_up := true; files := map snd data_dict |}.

(** The QVM server down. *)
Definition offline : World :=
  {| ticks := 0; qvm_up := false;
     files := "vqe_parallel/RY_params.npy" :: map snd data_dict |}.


(** Two simulated energies agree when they differ by at most one unit
  in the last place. *)
Definition close (a b : Z) : Prop := (Z.abs (a - b) <= 1)%Z.

(** The state the script leaves when it has run in [ready]. *)
Definition prepared : State := final (script (start (R:=runtime) ready)).

End Sim.

(** ** Reading a trace *)

Section Traces.

Context {T : LibTypes}.

(** The entries of [l] that [f] recognises, in order. *)
Definition pick {A B} (f : A -> option B) (l : list A) : list B :=
  flat_map (fun x => match f x with Some y => [y] | None => [] end) l.

(** A call of [qchem.generate_hamiltonian]: its arguments and result. *)
Definition generation (ev : Event)
    : option (string * string * Z * Z * string * Z * Z
              * result LibExn (Hamiltonian * Z)) :=
  match ev with
  | EvCall c r =>
      match c in Call X return result LibExn X -> option _ with
      | generate_hamiltonian n f q m b ne no =>
          fun r => Some (n, f, q, m, b, ne, no, r)
      | _ => fun _ => None
      end r
  | EvPrint _ => None
  end.

(** A call of [qml.device]. *)
Definition device_made (ev : Event)
    : option (string * string * result LibExn Device) :=
  match ev with
  | EvCall c r =>
      match c in Call X return result LibExn X -> option _ with
      | qml_device n d => fun r => Some (n, d, r)
      | _ => fun _ => None
      end r
  | EvPrint _ => None
  end.

(** A call of [qml.VQECost]: circuit, Hamiltonian, devices, result. *)
Definition construction (ev : Event)
    : option ((Param -> list Z -> list Operation) * Hamiltonian
              * list Device * result LibExn Cost) :=
  match ev with
  | EvCall c r =>
      match c in Call X return result LibExn X -> option _ with
      | VQECost a h ds => fun r => Some (a, h, ds, r)
      | _ => fun _ => None
      end r
  | EvPrint _ => None
  end.

(** An evaluation [e(param, parallel=flag)]. *)
Definition evaluation (ev : Event)
    : option (Cost * Param * bool * result LibExn Energy) :=
  match ev with
  | EvCall c r =>
      match c in Call X return result LibExn X -> option _ with
      | cost_call e p b => fun r => Some (e, p, b, r)
      | _ => fun _ => None
      end r
  | EvPrint _ => None
  end.

(** The value of an evaluation made with the given flag. *)
Definition energy_of (parallel : bool) (ev : Event) : option Energy :=
  match evaluation ev with
  | Some (_, _, b, Returned v) =>
      if Bool.eqb b parallel then Some v else None
  | _ => None
  end.

(** A reading of the clock. *)
Definition clock_read (ev : Event) : option Q :=
  match ev with
  | EvCall c r =>
      match c in Call X return result LibExn X -> option Q with
      | time_time => fun r => match r with
                              | Returned t => Some t
                              | Raised _ => None
                              end
      | _ => fun _ => None
      end r
  | EvPrint _ => None
  end.

(** A call of [plt.plot]: its data and keywords. *)
Definition plotted (ev : Event)
    : option (option (list float) * list Energy * float * string) :=
  match ev with
  | EvCall c _ =>
      match c with
      | plt_plot x y w m => Some (x, y, w, m)
      | _ => None
      end
  | EvPrint _ => None
  end.

(** The label given to the horizontal axis. *)
Definition xlabel_set (ev : Event) : option string :=
  match ev with
  | EvCall c _ =>
      match c with
      | plt_xlabel l _ => Some l
      | _ => None
      end
  | EvPrint _ => None
  end.

(** The file a call reads, if it reads one. *)
Definition file_read (ev : Event) : option string :=
  match ev with
  | EvCall c _ =>
      match c with
      | generate_hamiltonian _ f _ _ _ _ _ => Some f
      | np_load f => Some f
      | _ => None
      end
  | EvPrint _ => None
  end.

(** The exception a library call ended with, if it raised. *)
Definition raised_in (ev : Event) : option LibExn :=
  match ev with
  | EvCall _ (Raised e) => Some e
  | _ => None
  end.


(** The evaluations of a trace, in order: cost object, parameter and
  flag. *)
Definition evaluated (evs : list Event) : list (Cost * Param * bool) :=
  map (fun x => fst x) (pick evaluation evs).

(** The cost objects built, each with the Hamiltonian it was built from. *)
Definition built (evs : list Event) : list (Hamiltonian * Cost) :=
  pick (fun ev => match construction ev with
                  | Some (_, h, _, Returned e) => Some (h, e)
                  | _ => None
                  end) evs.

(** The Hamiltonian each cost object was built from. *)
Definition hamiltonians_used (evs : list Event) : list Hamiltonian :=
  map (fun x => snd (fst (fst x))) (pick construction evs).

(** The device pool each cost object was built with. *)
Definition pools (evs : list Event) : list (list Device) :=
  map (fun x => snd (fst x)) (pick construction evs).

(** The Hamiltonians generated, each with its geometry file. *)
Definition generated (evs : list Event) : list (string * Hamiltonian) :=
  pick (fun ev => match generation ev with
                  | Some (_, f, _, _, _, _, _, Returned hn) => Some (f, fst hn)
                  | _ => None
                  end) evs.

(** The devices created, each with the name it was asked for. *)
Definition devices_made (evs : list Event) : list (string * Device) :=
  pick (fun ev => match device_made ev with
                  | Some (_, d, Returned v) => Some (d, v)
                  | _ => None
                  end) evs.

(** matplotlib's reading of the data of [plot]: a single array is
    plotted against its indices 0, 1, 2, ...; two arrays are paired. *)
Definition index_float (i : nat) : float :=
  PrimFloat.of_uint63 (Uint63Axioms.of_Z (Z.of_nat i)).

Definition plot_points (x : option (list float)) (y : list Energy)
    : list (float * Energy) :=
  match x with
  | None => combine (map index_float (seq 0 (List.length y))) y
  | Some xs => combine xs y
  end.

End Traces.

(** ** The shape of a run that returns *)

Section Shape.

Context {T : LibTypes} {R : Runtime}.

(** [m] run from [s] returns [a], ends in [s'] and leaves [evs]. *)
Definition returns {A} (m : M A) (s : State) (a : A) (s' : State)
    (evs : list Event) : Prop :=
  outcome (m s) = Returned a /\ final (m s) = s' /\ events (m s) = evs.

(** One iteration of the loop of [calculate_surface] that returned: the
  key it printed, the parameter it used and the value it obtained. *)
Record Row : Type := {
  row_key : float;
  row_param : Param;
  row_value : Energy
}.

(** What the iteration for cost object [fst er] leaves in the trace. *)
Definition step_events (parallel : bool) (er : Cost * Row) : list Event :=
  [ EvPrint ("Running for molecular separation "
             ++ Py.str_float (row_key (snd er)) ++ " Å");
    EvCall (cost_call (fst er) (row_param (snd er)) parallel)
           (Returned (row_value (snd er))) ].

(** Row [i] of a run in namespace [g]: the key is [list(data.keys())[i]],
  the parameter is [params[i]], and the value is what the runtime
  answered to [e(params[i], parallel=parallel)]. *)
Definition row_ok (g : Globals) (parallel : bool) (i : nat) (e : Cost)
    (row : Row) : Prop :=
  (exists d, data g = Some d /\ nth_error (keys d) i = Some (row_key row)) /\
  (exists ps, params g = Some ps /\ nth_error ps i = Some (row_param row)) /\
  (exists l, fst (lib_call (cost_call e (row_param row) parallel) l)
             = Returned (row_value row)).

Definition surface_events (parallel : bool) (es : list Cost)
    (rows : list Row) (t0 t1 : Q) : list Event :=
  (EvCall time_time (Returned t0)
     :: flat_map (step_events parallel) (combine es rows)
     ++ [ EvCall time_time (Returned t1);
          EvPrint ("Evaluation time: " ++ Py.format_2f_Q (t1 - t0) ++ " s") ])%list.

(** The trace of a run of the script in which no call raises. *)
Definition normal_trace (hns : list (Hamiltonian * Z)) (d4 d7 : list Device)
    (ps : list Param) (es : list Cost)
    (rows1 rows2 : list Row) (t0 t1 t2 t3 : Q)
    : list Event :=
  (map (fun xr => EvCall (generate_hamiltonian (Py.str_float (fst (fst xr)))
                            (snd (fst xr)) 0 1 "sto-3g" 2 2)
                         (Returned (snd xr)))
       (combine data_dict hns)
   ++ [EvPrint (Py.str_list (map n_ops (map fst hns)))]
   ++ map (fun xr => EvCall (qml_device "forest.qvm" "Aspen-4-4Q-E")
                            (Returned (snd xr)))
          (combine (Py.range 8) d4)
   ++ map (fun xr => EvCall (qml_device "forest.qvm" "Aspen-7-4Q-C")
                            (Returned (snd xr)))
          (combine (Py.range 7) d7)
   ++ [EvCall (np_load "vqe_parallel/RY_params.npy") (Returned ps)]
   ++ map (fun xr => EvCall (VQECost circuit (fst xr) (d4 ++ d7))
                            (Returned (snd xr)))
          (combine (map fst hns) es)
   ++ [EvPrint "Evaluating the potential energy surface sequentially"]
   ++ surface_events false es rows1 t0 t1
   ++ [EvPrint (Py.nl ++ "Evaluating the potential energy surface in parallel")]
   ++ surface_events true es rows2 t2 t3
   ++ [ EvPrint ("Speedup: "
                 ++ Py.format_2f (Py.binary64 (t1 - t0) / Py.binary64 (t3 - t2))%float);
        EvCall (plt_plot None (map row_value rows2) 2.2%float "o") (Returned tt);
        EvCall (plt_title "Potential energy surface for molecular hydrogen" 12)
               (Returned tt);
        EvCall (plt_xlabel "Atomic separation (Å)" 16) (Returned tt);
        EvCall (plt_ylabel "Ground state energy (Ha)" 16) (Returned tt);
        EvCall (plt_grid true) (Returned tt) ])%list.

Definition normal_globals (hns : list (Hamiltonian * Z)) (d4 d7 : list Device)
    (ps : list Param) (es : list Cost)
    (rows2 : list Row) (t0 t1 t2 t3 : Q) : Globals :=
  {| data := Some data_dict;
     hamiltonians := Some (map fst hns);
     devs_4 := Some d4;
     devs_7 := Some d7;
     devs := Some (d4 ++ d7)%list;
     params := Some ps;
     energies := Some es;
     surface := Some (map row_value rows2);
     t_seq := Some (t1 - t0)%Q;
     t_par := Some (t3 - t2)%Q |}.

End Shape.

(** ** Judgements on runs *)

Section Judgements.

Context {T : LibTypes} {R : Runtime}.

(** No library call in the trace raised. *)
Definition quiet (evs : list Event) : Prop :=
  Forall (fun ev => raised_in ev = None) evs.

(** An exception raised by a library is the outcome of the run, and the
    call that raised it is the last thing the run did. *)
Definition propagated {A} (r : Run A) : Prop :=
  match outcome r with
  | Raised (LibraryError e) =>
      exists pre ev, events r = (pre ++ [ev])%list /\ quiet pre /\
                     raised_in ev = Some e
  | _ => quiet (events r)
  end.

(** A Hoare triple on the module namespace: from a namespace satisfying
    [P], the run ends in a namespace satisfying [Q] when it returns and
    [E] when it raises; the library state moves along [rel], every event
    satisfies [ok], and library exceptions are propagated. *)
Definition triple {A} (rel : LibState -> LibState -> Prop)
    (ok : Event -> Prop) (E : Globals -> Prop)
    (P : Globals -> Prop) (m : M A) (Q : A -> Globals -> Prop) : Prop :=
  forall s, P (globals s) ->
    rel (lib s) (lib (final (m s))) /\
    Forall ok (events (m s)) /\
    propagated (m s) /\
    match outcome (m s) with
    | Returned a => Q a (globals (final (m s)))
    | Raised _ => E (globals (final (m s)))
    end.

(** An event that reads a file reads a file of the tutorial: a geometry
  file of [data] for [generate_hamiltonian], the parameter file for
  [np.load]. *)
Definition reads_known (ev : Event) : Prop :=
  match ev with
  | EvCall c _ =>
      match c with
      | generate_hamiltonian _ f _ _ _ _ _ => In f (map snd data_dict)
      | np_load f => f = "vqe_parallel/RY_params.npy"
      | _ => True
      end
  | EvPrint _ => True
  end.

(** No constraint on the library state, none on the namespace. *)
Definition any_lib (l l' : LibState) : Prop := True.
Definition any_globals (g : Globals) : Prop := True.


End Judgements.

(** ** Runs followed step by step *)

Section Stepwise.

Context {T : LibTypes} {R : Runtime}.
Local Open Scope script_scope.

(** What an event is, without what it carries. *)
Inductive Kind : Type :=
  | KGenerate
  | KDevice (device : string)
  | KLoad
  | KBuild
  | KEvaluate (parallel : bool)
  | KClock
  | KPlot
  | KTitle
  | KXlabel
  | KYlabel
  | KGrid
  | KPrint.

Definition kind (ev : Event) : Kind :=
  match ev with
  | EvPrint _ => KPrint
  | EvCall c _ =>
      match c with
      | generate_hamiltonian _ _ _ _ _ _ _ => KGenerate
      | qml_device _ d => KDevice d
      | np_load _ => KLoad
      | VQECost _ _ _ => KBuild
      | cost_call _ _ b => KEvaluate b
      | time_time => KClock
      | plt_plot _ _ _ _ => KPlot
      | plt_title _ _ => KTitle
      | plt_xlabel _ _ => KXlabel
      | plt_ylabel _ _ => KYlabel
      | plt_grid _ => KGrid
      end
  end.

(** The kinds of the events of one call of [calculate_surface] over ten
    cost objects. *)
Definition surface_kinds (parallel : bool) : list Kind :=
  (KClock :: List.concat (repeat [KPrint; KEvaluate parallel] 10)
   ++ [KClock; KPrint])%list.

(** The kinds of the events of the script, top to bottom. *)
Definition script_kinds : list Kind :=
  (repeat KGenerate 10 ++ [KPrint]
   ++ repeat (KDevice "Aspen-4-4Q-E") 8 ++ repeat (KDevice "Aspen-7-4Q-C") 7
   ++ [KLoad] ++ repeat KBuild 10
   ++ [KPrint] ++ surface_kinds false
   ++ [KPrint] ++ surface_kinds true
   ++ [KPrint; KPlot; KTitle; KXlabel; KYlabel; KGrid])%list.

(** [a] is an initial segment of [b]. *)
Definition initial_segment {A} (a b : list A) : Prop :=
  exists rest, b = (a ++ rest)%list.

(** The array a call of [np.load] returned. *)
Definition loaded (ev : Event) : option (list Param) :=
  match ev with
  | EvCall c r =>
      match c in Call X return result LibExn X -> option (list Param) with
      | np_load _ => fun r => match r with
                              | Returned ps => Some ps
                              | Raised _ => None
                              end
      | _ => fun _ => None
      end r
  | EvPrint _ => None
  end.

(** A line printed on the console. *)
Definition printed (ev : Event) : option string :=
  match ev with
  | EvPrint line => Some line
  | EvCall _ _ => None
  end.

(** [m], run in namespace [G] after the events [H], ends with [Post] on
    its value, the namespace and the events so far when it returns, and
    with [Exc] on its exception, the namespace and the events so far
    when it raises, whatever the state of the libraries. *)
Definition runs {A} (G : Globals) (H : list Event) (m : M A)
    (Post : A -> Globals -> list Event -> Prop)
    (Exc : exn -> Globals -> list Event -> Prop) : Prop :=
  forall l,
    let r := m {| globals := G; lib := l |} in
    match outcome r with
    | Returned a => Post a (globals (final r)) (H ++ events r)%list
    | Raised x => Exc x (globals (final r)) (H ++ events r)%list
    end.

(** *** The script *)

(** What the two passes have bound, by the clock readings made so far:
    nothing before the sequential pass has read the clock twice; then
    [surface] holds the sequential energies and [t_seq] the time of the
    sequential pass; once the parallel pass has read the clock twice,
    [surface] holds the parallel energies and [t_par] its time. *)
Definition bound_by_passes (g : Globals) (h : list Event) : Prop :=
  match pick clock_read h with
  | [] | [_] => surface g = None /\ t_seq g = None /\ t_par g = None
  | [t0; t1] | [t0; t1; _] =>
      surface g = Some (pick (energy_of false) h) /\
      t_seq g = Some (t1 - t0)%Q /\ t_par g = None
  | [t0; t1; t2; t3] =>
      surface g = Some (pick (energy_of true) h) /\
      t_seq g = Some (t1 - t0)%Q /\ t_par g = Some (t3 - t2)%Q
  | _ => False
  end.

(** The progress lines of one pass over the ten separations. *)
Definition progress : list string :=
  map (fun k => "Running for molecular separation " ++ k ++ " Å")
      ["0.3"; "0.5"; "0.7"; "0.9"; "1.1"; "1.3"; "1.5"; "1.7"; "1.9"; "2.1"].

(** The console of a run of the script that returns: [ops] are the
    numbers of terms of the Hamiltonians, [ts] and [tp] the times the
    sequential and the parallel pass returned.  The speedup is their
    quotient in binary64. *)
Definition transcript (ops : list nat) (ts tp : Q) : list string :=
  let elapsed t := "Evaluation time: " ++ Py.format_2f_Q t ++ " s" in
  let speedup :=
    "Speedup: " ++ Py.format_2f (Py.binary64 ts / Py.binary64 tp)%float in
  let parallel := Py.nl ++ "Evaluating the potential energy surface in parallel" in
  ([ Py.str_list ops;
     "Evaluating the potential energy surface sequentially" ]
   ++ progress
   ++ [ elapsed ts; parallel ]
   ++ progress
   ++ [ elapsed tp; speedup ])%list.

(** How the script can fail: never with [NameError]; with [IndexError]
    only in the sequential pass, when the parameter file holds fewer
    than ten values; with [ZeroDivisionError] only when the parallel
    pass took no time; with a library exception only as its last event.
    In every case the events so far follow the order of the script. *)
Definition script_failed (x : exn) (g : Globals) (h : list Event) : Prop :=
  initial_segment (map kind h) script_kinds /\
  bound_by_passes g h /\
  match x with
  | NameError _ => False
  | IndexError =>
      exists ps,
        pick loaded h = [ps] /\ (List.length ps < 10)%nat /\
        List.length (evaluated h) = List.length ps /\
        Forall (fun c => snd c = false) (evaluated h) /\
        pick plotted h = [] /\ surface g = None
  | ZeroDivisionError =>
      exists t0 t1 t2 t3,
        pick clock_read h = [t0; t1; t2; t3] /\
        Qeq_bool (t3 - t2) 0 = true /\
        List.length (evaluated h) = 20%nat /\
        pick plotted h = [] /\
        t_par g = Some (t3 - t2)%Q /\
        surface g = Some (pick (energy_of true) h)
  | LibraryError e =>
      exists pre ev, h = (pre ++ [ev])%list /\ quiet pre /\
                     raised_in ev = Some e
  end.

(** What holds when the script returns. *)
Definition script_completed (g : Globals) (h : list Event) : Prop :=
  map kind h = script_kinds /\
  quiet h /\
  bound_by_passes g h /\
  (exists ps, pick loaded h = [ps] /\ (10 <= List.length ps)%nat) /\
  (exists hs t0 t1 t2 t3,
      hamiltonians g = Some hs /\
      pick clock_read h = [t0; t1; t2; t3] /\
      Qeq_bool (t3 - t2) 0 = false /\
      pick printed h = transcript (map n_ops hs) (t1 - t0) (t3 - t2)).

(** *** [calculate_surface] *)

(** The evaluations a call of [calculate_surface] is to make in
    namespace [g]: [energies[i]] on [params[i]] with the flag, for every
    [i] both lists have. *)
Definition due (parallel : bool) (g : Globals) : list (Cost * Param * bool) :=
  match energies g, params g with
  | Some es, Some ps => map (fun ep => (fst ep, snd ep, parallel)) (combine es ps)
  | _, _ => []
  end.

(** The progress line of [calculate_surface] for a key of [data]. *)
Definition progress_line (k : float) : string :=
  "Running for molecular separation " ++ Py.str_float k ++ " Å".

(** The keys of [data] in namespace [g], none when it is unbound. *)
Definition separations (g : Globals) : list float :=
  match data g with
  | Some d => keys d
  | None => []
  end.

(** How a call of [calculate_surface] in namespace [g] can fail, [h]
    being the events it left. *)
Definition surface_failed (parallel : bool) (x : exn) (g : Globals)
    (h : list Event) : Prop :=
  initial_segment (evaluated h) (due parallel g) /\
  match x with
  | NameError name =>
      evaluated h = [] /\
      ((name = "energies" /\ energies g = None) \/
       (name = "data" /\ data g = None) \/
       (name = "params" /\ params g = None))
  | IndexError =>
      exists es d,
        energies g = Some es /\ data g = Some d /\
        (List.length (evaluated h) < List.length es)%nat /\
        match params g with
        | Some ps =>
            List.length (evaluated h) = Nat.min (List.length d) (List.length ps)
        | None => evaluated h = [] /\ d = []
        end
  | ZeroDivisionError => False
  | LibraryError _ => True
  end.

(** What holds when a call of [calculate_surface] in namespace [g]
    returns [vt], [h] being the events it left. *)
Definition surface_returned (parallel : bool) (vt : list Energy * Q)
    (g : Globals) (h : list Event) : Prop :=
  exists es,
    energies g = Some es /\
    evaluated h = due parallel g /\
    List.length (evaluated h) = List.length es /\
    pick printed h
    = (map progress_line (firstn (List.length es) (separations g))
       ++ [("Evaluation time: " ++ Py.format_2f_Q (snd vt) ++ " s")%string])%list.

(** What holds of the events [H] left before iteration [i] of the loop
    of [calculate_surface] in namespace [G]. *)
Definition before_iteration (parallel : bool) (G : Globals) (i : nat)
    (H : list Event) : Prop :=
  ((0 < i)%nat -> data G <> None /\ params G <> None) /\
  (forall d, data G = Some d -> (i <= List.length d)%nat) /\
  (forall ps, params G = Some ps -> (i <= List.length ps)%nat) /\
  evaluated H = firstn i (due parallel G) /\
  List.length (evaluated H) = i /\
  pick printed H = map progress_line (firstn i (separations G)).

End Stepwise.

(** ** A second simulated runtime

  The simulated libraries of [Sim], with the array that [np.load]
  returns and the behaviour of the clock made parameters: a parameter
  file with too few values, and a clock too coarse to see time pass. *)

Module Lab.

Record World : Type := {
  stored : list Z;       (* the array in the parameter file *)
  frozen : bool;         (* the clock always reads zero *)
  base : Sim.World
}.

Definition on (w : World) (a : Sim.World) : World :=
  {| stored := stored w; frozen := frozen w; base := a |}.

Definition answer (X : Type) (c : Call (T := Sim.types) X) (w : World)
    : result string X * World :=
  match c in Call X return result string X * World with
  | np_load file =>
      if Sim.present file (base w)
      then (Returned (stored w), on w (Sim.tick 1 (base w)))
      else (Raised "FileNotFoundError", on w (Sim.tick 1 (base w)))
  | time_time =>
      if frozen w then (Returned 0%Q, w)
      else (fst (Sim.answer time_time (base w)),
            on w (snd (Sim.answer time_time (base w))))
  | c' => (fst (Sim.answer c' (base w)), on w (snd (Sim.answer c' (base w))))
  end.

#[export] Instance runtime : Runtime (T := Sim.types) := {|
  LibState := World;
  lib_call := answer;
  n_ops := fun _ => 15%nat
|}.

(** Three values in the parameter file. *)
Definition short : World :=
  {| stored := [11; 12; 13]%Z; frozen := false; base := Sim.ready |}.

(** A clock that does not advance. *)
Definition still : World :=
  {| stored := [11; 12; 13; 14; 15; 16; 17; 18; 19; 20]%Z; frozen := true;
     base := Sim.ready |}.

(** The namespace the script leaves in [Sim.ready], with [params]
    rebound to two values. *)
Definition two_params : State (R := Sim.runtime) :=
  {| globals := set_params (T := Sim.types) [11; 12]%Z (globals Sim.prepared);
     lib := lib Sim.prepared |}.

End Lab.

(** ** A runtime that depends on time

  The simulated libraries of [Sim] again, with a device whose estimates
  drift as time passes (one unit more per second elapsed, as on
  hardware that is losing its calibration) and a clock that can be set:
  it gives the readings it was set to, in order, before it falls back
  on the time of the world. *)

Module Drift.

Record World : Type := {
  readings : list Q;     (* what the clock will read, in order *)
  drifting : bool;       (* the estimates drift with time *)
  base : Sim.World
}.

Definition on (w : World) (a : Sim.World) : World :=
  {| readings := readings w; drifting := drifting w; base := a |}.

Definition answer (X : Type) (c : Call (T := Sim.types) X) (w : World)
    : result string X * World :=
  match c in Call X return result string X * World with
  | time_time =>
      match readings w with
      | t :: rest =>
          (Returned t,
           {| readings := rest; drifting := drifting w;
              base := Sim.tick 1 (base w) |})
      | [] => (fst (Sim.answer time_time (base w)),
               on w (snd (Sim.answer time_time (base w))))
      end
  | cost_call e p parallel =>
      let a := Sim.answer (cost_call e p parallel) (base w) in
      (match fst a with
       | Returned v =>
           Returned (if drifting w
                     then (v + Z.of_nat (Sim.ticks (base w)))%Z else v)
       | Raised x => Raised x
       end,
       on w (snd a))
  | c' => (fst (Sim.answer c' (base w)), on w (snd (Sim.answer c' (base w))))
  end.

#[export] Instance runtime : Runtime (T := Sim.types) := {|
  LibState := World;
  lib_call := answer;
  n_ops := fun _ => 15%nat
|}.

(** Every file present, the QVM up, the device drifting. *)
Definition uncalibrated : World :=
  {| readings := []; drifting := true; base := Sim.ready |}.

(** The state the script leaves when it has run in [uncalibrated]. *)
Definition prepared : State := final (script (start (R := runtime) uncalibrated)).


(** A steady device, and a clock that gives the sequential pass 535
    seconds and the parallel pass 200. *)
Definition timed : World :=
  {| readings := [0; 535; 535; 735]; drifting := false; base := Sim.ready |}.


End Drift.

(** * Properties *)

(** ** Runs that return *)

Section Returns.

Context {T : LibTypes} {R : Runtime}.
Local Open Scope script_scope.

Lemma returns_run {A} (m : M A) s a :
  outcome (m s) = Returned a -> returns m s a (final (m s)) (events (m s)).
Proof. intros H; repeat split; assumption. Qed.

Lemma returns_ret {A} (a b : A) s s' evs :
  returns (ret a) s b s' evs -> b = a /\ s' = s /\ evs = [].
Proof.
  unfold returns, ret; simpl; intros (Ho & Hf & He).
  inversion Ho; subst; auto.
Qed.

Lemma returns_bind {A B} (m : M A) (k : A -> M B) s b s2 evs :
  returns (bind m k) s b s2 evs ->
  exists a s1 e1 e2,
    returns m s a s1 e1 /\ returns (k a) s1 b s2 e2 /\ evs = (e1 ++ e2)%list.
Proof.
  unfold returns, bind; intros (Ho & Hf & He).
  destruct (outcome (m s)) as [a|x] eqn:Hm; simpl in *; [|discriminate].
  exists a, (final (m s)), (events (m s)), (events (k a (final (m s)))).
  repeat split; auto.
Qed.

Lemma returns_call {X} (c : Call X) s x s' evs :
  returns (call c) s x s' evs ->
  fst (lib_call c (lib s)) = Returned x /\
  s' = {| globals := globals s; lib := snd (lib_call c (lib s)) |} /\
  evs = [EvCall c (Returned x)].
Proof.
  unfold returns, call; simpl; intros (Ho & Hf & He).
  destruct (fst (lib_call c (lib s))) as [y|e] eqn:Hc; [|discriminate].
  inversion Ho; subst; auto.
Qed.

Lemma returns_print line s u s' evs :
  returns (print line) s u s' evs -> s' = s /\ evs = [EvPrint line].
Proof. unfold returns, print; simpl; intros (_ & Hf & He); auto. Qed.

Lemma returns_lookup {A} name (field : Globals -> option A) s v s' evs :
  returns (lookup name field) s v s' evs ->
  field (globals s) = Some v /\ s' = s /\ evs = [].
Proof.
  unfold returns, lookup; simpl; intros (Ho & Hf & He).
  destruct (field (globals s)); inversion Ho; subst; auto.
Qed.

Lemma returns_assign set s u s' evs :
  returns (assign set) s u s' evs ->
  s' = {| globals := set (globals s); lib := lib s |} /\ evs = [].
Proof. unfold returns, assign; simpl; intros (_ & Hf & He); auto. Qed.

Lemma returns_subscript {A} (l : list A) i s a s' evs :
  returns (subscript l i) s a s' evs ->
  nth_error l i = Some a /\ s' = s /\ evs = [].
Proof.
  unfold returns, subscript; intros H.
  destruct (nth_error l i) as [y|]; simpl in H; destruct H as (Ho & Hf & He);
    inversion Ho; subst; auto.
Qed.

Lemma returns_true_div a b s q s' evs :
  returns (true_div a b) s q s' evs ->
  Qeq_bool b 0 = false /\ q = (Py.binary64 a / Py.binary64 b)%float /\
  s' = s /\ evs = [].
Proof.
  unfold returns, true_div; intros H.
  destruct (Qeq_bool b 0); simpl in H; destruct H as (Ho & Hf & He);
    inversion Ho; subst; auto.
Qed.

End Returns.

(** Takes a hypothesis [returns m s a s' evs] apart along the structure
  of [m], down to calls of the runtime. *)
Ltac split_run H :=
  cbv beta in H;
  lazymatch type of H with
  | returns (bind _ _) _ _ _ _ =>
      let a := fresh "a" in
      let s1 := fresh "s" in
      let e1 := fresh "e" in
      let e2 := fresh "e" in
      let H1 := fresh "Hm" in
      let H2 := fresh "Hk" in
      let He := fresh "He" in
      apply returns_bind in H;
      destruct H as (a & s1 & e1 & e2 & H1 & H2 & He);
      subst; cbn [globals lib] in *; split_run H1; split_run H2
  | returns (ret _) _ _ _ _ =>
      let E1 := fresh in let E2 := fresh in let E3 := fresh in
      apply returns_ret in H; destruct H as (E1 & E2 & E3); subst;
      cbn [globals lib] in *
  | returns (print _) _ _ _ _ =>
      let E1 := fresh in let E2 := fresh in
      apply returns_print in H; destruct H as (E1 & E2); subst;
      cbn [globals lib] in *
  | returns (assign _) _ _ _ _ =>
      let E1 := fresh in let E2 := fresh in
      apply returns_assign in H; destruct H as (E1 & E2); subst;
      cbn [globals lib] in *
  | returns (lookup _ _) _ _ _ _ =>
      let E1 := fresh "Hget" in let E2 := fresh in let E3 := fresh in
      apply returns_lookup in H; destruct H as (E1 & E2 & E3); subst;
      cbn [globals lib] in *
  | returns (subscript _ _) _ _ _ _ =>
      let E1 := fresh "Hnth" in let E2 := fresh in let E3 := fresh in
      apply returns_subscript in H; destruct H as (E1 & E2 & E3); subst;
      cbn [globals lib] in *
  | returns (true_div _ _) _ _ _ _ =>
      let E1 := fresh "Hdiv" in let E2 := fresh in let E3 := fresh in
      let E4 := fresh in
      apply returns_true_div in H; destruct H as (E1 & E2 & E3 & E4); subst;
      cbn [globals lib] in *
  | returns (call _) _ _ _ _ =>
      let E1 := fresh "Hcall" in let E2 := fresh in let E3 := fresh in
      apply returns_call in H; destruct H as (E1 & E2 & E3); subst;
      cbn [globals lib] in *
  | returns (let (_, _) := ?p in _) _ _ _ _ =>
      destruct p; split_run H
  | _ => idtac
  end.

(** ** What a returning run leaves *)

Section ShapeLemmas.

Context {T : LibTypes} {R : Runtime}.
Local Open Scope script_scope.

Lemma surface_loop_returns parallel es :
  forall n acc s v s' evs,
    returns (for_each (combine (seq n (List.length es)) es)
                      (surface_step parallel) acc) s v s' evs ->
    exists rows,
      List.length rows = List.length es /\
      v = (acc ++ map row_value rows)%list /\
      globals s' = globals s /\
      evs = flat_map (step_events parallel) (combine es rows) /\
      forall j e row, nth_error es j = Some e -> nth_error rows j = Some row ->
                      row_ok (globals s) parallel (n + j) e row.
Proof.
  induction es as [|e es IH]; intros n acc s v s' evs H; simpl in H.
  - split_run H. exists []. rewrite app_nil_r.
    split; [|split; [|split; [|split]]]; auto.
    intros [|j] ? ? ?; discriminate.
  - unfold surface_step in H; split_run H.
    match goal with
    | Hk : data _ = Some ?d, Hn : nth_error (keys ?d) _ = Some ?k,
      Hp : nth_error _ _ = Some ?p,
      Hc : fst (lib_call (cost_call _ ?p _) _) = Returned ?v |- _ =>
        rename k into key; rename p into par; rename v into val
    end.
    apply IH in Hk. destruct Hk as (rows & Hlen & Hv & Hg & Hev & Hrows).
    exists ({| row_key := key; row_param := par; row_value := val |} :: rows).
    simpl in *.
    split; [|split; [|split; [|split]]].
    + now rewrite Hlen.
    + rewrite Hv, <- app_assoc. reflexivity.
    + exact Hg.
    + now rewrite Hev.
    + intros [|j] e' row He Hr; simpl in *.
      * inversion He; inversion Hr; subst. rewrite Nat.add_0_r.
        repeat split; eauto.
      * rewrite Nat.add_succ_r. exact (Hrows j e' row He Hr).
Qed.

Lemma calculate_surface_returns parallel s v t s' evs :
  returns (calculate_surface parallel) s (v, t) s' evs ->
  exists es rows t0 t1,
    energies (globals s) = Some es /\
    List.length rows = List.length es /\
    v = map row_value rows /\
    t = (t1 - t0)%Q /\
    globals s' = globals s /\
    evs = surface_events parallel es rows t0 t1 /\
    forall j e row, nth_error es j = Some e -> nth_error rows j = Some row ->
                    row_ok (globals s) parallel j e row.
Proof.
  intros H. unfold calculate_surface in H. split_run H.
  match goal with
  | Hk : returns (for_each _ _ _) _ _ _ _ |- _ =>
      apply surface_loop_returns in Hk;
      destruct Hk as (rows & Hlen & Hv & Hg & Hev & Hrows)
  end.
  match goal with
  | H0 : fst (lib_call time_time (lib s)) = Returned ?x,
    H1 : fst (lib_call time_time _) = Returned ?y,
    He : energies _ = Some ?l |- _ =>
      exists l, rows, x, y
  end.
  simpl in *. subst.
  split; [|split; [|split; [|split; [|split; [|split]]]]]; auto; congruence.
Qed.

(** A comprehension whose body is one library call: it returns the
    results of the calls, made in the order of the list. *)
Lemma mapM_calls_return {A B X} (f : A -> M B) (c : A -> Call X) (g : X -> B)
    (l : list A) :
  forall s ys s' evs,
    (forall x s1 y s2 e, globals s1 = globals s -> returns (f x) s1 y s2 e ->
       exists r, y = g r /\ globals s2 = globals s1 /\
                 e = [EvCall (c x) (Returned r)]) ->
    returns (mapM f l) s ys s' evs ->
    exists rs,
      List.length rs = List.length l /\
      ys = map g rs /\
      globals s' = globals s /\
      evs = map (fun xr => EvCall (c (fst xr)) (Returned (snd xr))) (combine l rs).
Proof.
  induction l as [|x l IH]; intros s ys s' evs Hf H; simpl in H.
  - split_run H. exists []. auto.
  - split_run H.
    match goal with
    | Hm : returns (f x) _ _ _ _, Hk : returns (mapM f l) _ _ _ _ |- _ =>
        destruct (Hf _ _ _ _ _ eq_refl Hm) as (r & Hy & Hg & Hev);
        apply IH in Hk;
        [ destruct Hk as (rs & Hlen & Hys & Hg' & Hevs)
        | intros x1 s2 y1 s3 e2 Hs1; apply Hf; congruence ]
    end.
    exists (r :: rs). subst. simpl. rewrite Hlen, app_nil_r.
    repeat split; auto. congruence.
Qed.


Lemma script_returns l u s' evs :
  returns script (start l) u s' evs ->
  exists hns d4 d7 ps es rows1 rows2 t0 t1 t2 t3,
    List.length hns = 10%nat /\ List.length d4 = 8%nat /\
    List.length d7 = 7%nat /\ List.length es = 10%nat /\
    List.length rows1 = 10%nat /\ List.length rows2 = 10%nat /\
    globals s' = normal_globals hns d4 d7 ps es rows2 t0 t1 t2 t3 /\
    evs = normal_trace hns d4 d7 ps es rows1 rows2 t0 t1 t2 t3 /\
    (forall j e row, nth_error es j = Some e -> nth_error rows1 j = Some row ->
       row_ok (normal_globals hns d4 d7 ps es rows2 t0 t1 t2 t3) false j e row) /\
    (forall j e row, nth_error es j = Some e -> nth_error rows2 j = Some row ->
       row_ok (normal_globals hns d4 d7 ps es rows2 t0 t1 t2 t3) true j e row).
Proof.
  intros H. unfold script in H. split_run H.
  unfold start in *; cbn [globals lib] in *.
  repeat match goal with
  | H : returns (mapM _ (items _)) _ _ _ _ |- _ =>
      apply (@mapM_calls_return _ _ _ _
               (fun kv => generate_hamiltonian (Py.str_float (fst kv)) (snd kv)
                            0 1 "sto-3g" 2 2) fst) in H;
      [ destruct H as (hns & Hhns & ? & Hg1 & ?)
      | intros [k f] s1' y s2' e' _ Hr; split_run Hr; eexists; eauto ]
  | H : returns (mapM _ (Py.range 8)) _ _ _ _ |- _ =>
      apply (@mapM_calls_return _ _ _ _
               (fun _ => qml_device "forest.qvm" "Aspen-4-4Q-E") (fun d => d)) in H;
      [ destruct H as (d4 & Hd4 & ? & Hg2 & ?)
      | intros k s1' y s2' e' _ Hr; split_run Hr; eexists; eauto ]
  | H : returns (mapM _ (Py.range 7)) _ _ _ _ |- _ =>
      apply (@mapM_calls_return _ _ _ _
               (fun _ => qml_device "forest.qvm" "Aspen-7-4Q-C") (fun d => d)) in H;
      [ destruct H as (d7 & Hd7 & ? & Hg3 & ?)
      | intros k s1' y s2' e' _ Hr; split_run Hr; eexists; eauto ]
  end.
  cbn [globals lib] in *.
  rewrite Hg1 in *. rewrite Hg2 in *. rewrite Hg3 in *.
  cbn in Hget, Hget0, Hget1, Hget2, Hget3.
  inversion Hget; inversion Hget0; inversion Hget1; inversion Hget2;
    inversion Hget3; subst; clear Hget Hget0 Hget1 Hget2 Hget3.
  rewrite !map_id in *.
  match goal with
  | H : returns (mapM _ _) _ _ _ _ |- _ =>
      apply (@mapM_calls_return _ _ _ _
               (fun h => VQECost circuit h (d4 ++ d7)%list) (fun c => c)) in H;
      [ destruct H as (es & Hes & ? & Hg4 & ?)
      | intros h s1' y s2' e' Hs Hr; split_run Hr;
        match goal with
        | Hd : devs (globals s1') = Some _ |- _ =>
            rewrite Hs in Hd; cbn in Hd; inversion Hd; subst
        end;
        eexists; eauto ]
  end.
  cbn [globals lib] in *. rewrite map_id in *. subst.
  match goal with
  | H : returns (calculate_surface false) _ _ _ _ |- _ =>
      apply calculate_surface_returns in H;
      destruct H as (es1 & rows1 & t0 & t1 & Hes1 & Hl1 & ? & ? & Hg5 & ? & Hr1)
  end.
  match goal with
  | H : returns (calculate_surface true) _ _ _ _ |- _ =>
      apply calculate_surface_returns in H;
      destruct H as (es2 & rows2 & t2 & t3 & Hes2 & Hl2 & ? & ? & Hg6 & ? & Hr2)
  end.
  match goal with
  | H : fst (lib_call (np_load _) _) = Returned ?x |- _ => rename x into ps
  end.
  cbn [globals lib] in *.
  rewrite Hg4 in *. rewrite Hg5 in *. rewrite Hg6 in *.
  assert (es1 = es) by (cbn in Hes1; congruence).
  assert (es2 = es) by (cbn in Hes2; congruence).
  subst es1 es2.
  repeat match goal with
  | H : _ (set_t_par _ _) = Some ?x |- _ =>
      cbn in H; injection H as H; subst x
  end.
  subst.
  repeat match goal with
  | x : unit |- _ => destruct x
  end.
  exists hns, d4, d7, ps, es, rows1, rows2, t0, t1, t2, t3.
  rewrite length_map in *.
  split; [exact Hhns|]. split; [exact Hd4|]. split; [exact Hd7|].
  split; [rewrite Hes; exact Hhns|].
  split; [rewrite Hl1, Hes; exact Hhns|].
  split; [rewrite Hl2, Hes; exact Hhns|].
  split; [reflexivity|]. split; [reflexivity|].
  split; [exact Hr1|exact Hr2].
Qed.

End ShapeLemmas.

(** ** Rules of the triples *)

Section Triples.

Context {T : LibTypes} {R : Runtime}.
Variable rel : LibState -> LibState -> Prop.
Variable ok : Event -> Prop.
Variable E : Globals -> Prop.
Hypothesis rel_refl : forall l, rel l l.
Hypothesis rel_trans : forall a b c, rel a b -> rel b c -> rel a c.

Local Open Scope script_scope.

Lemma quiet_app a b : quiet a -> quiet b -> quiet (a ++ b).
Proof. unfold quiet; intros; apply Forall_app; auto. Qed.

Lemma triple_pre {A} (P P' : Globals -> Prop) (m : M A) Q :
  (forall g, P g -> P' g) -> triple rel ok E P' m Q -> triple rel ok E P m Q.
Proof. intros HP H s Hs. apply H, HP, Hs. Qed.

Lemma triple_post {A} (P : Globals -> Prop) (m : M A) (Q Q' : A -> Globals -> Prop) :
  (forall a g, Q a g -> Q' a g) -> triple rel ok E P m Q -> triple rel ok E P m Q'.
Proof.
  intros HQ H s Hs. destruct (H s Hs) as (H1 & H2 & H3 & H4).
  repeat split; auto. destruct (outcome (m s)); auto.
Qed.

Lemma triple_ret {A} (P : Globals -> Prop) (a : A) :
  triple rel ok E P (ret a) (fun b g => b = a /\ P g).
Proof.
  intros s Hs; unfold ret, propagated, quiet; simpl. repeat split; auto.
Qed.

Lemma triple_raise {A} (P : Globals -> Prop) (x : exn) (Q : A -> Globals -> Prop) :
  (forall e, x <> LibraryError e) -> (forall g, P g -> E g) ->
  triple rel ok E P (raise x) Q.
Proof.
  intros Hx HE s Hs; unfold raise, propagated, quiet; simpl.
  repeat split; auto.
  destruct x; auto. exfalso. eapply Hx; reflexivity.
Qed.

Lemma triple_bind {A B} (P : Globals -> Prop) (m : M A) (k : A -> M B) Q1 Q2 :
  triple rel ok E P m Q1 -> (forall a, triple rel ok E (Q1 a) (k a) Q2) ->
  triple rel ok E P (bind m k) Q2.
Proof.
  intros Hm Hk s Hs. destruct (Hm s Hs) as (H1 & H2 & H3 & H4).
  unfold bind. destruct (outcome (m s)) as [a|x] eqn:Ho; simpl.
  - destruct (Hk a (final (m s)) H4) as (K1 & K2 & K3 & K4).
    repeat split.
    + eapply rel_trans; eauto.
    + apply Forall_app; auto.
    + unfold propagated in *; simpl. rewrite Ho in H3.
      destruct (outcome (k a (final (m s)))) as [b|[n| | |e]];
        try (apply quiet_app; assumption).
      destruct K3 as (pre & ev & He & Hq & Hr).
      exists (events (m s) ++ pre)%list, ev. rewrite He, app_assoc.
      repeat split; auto. apply quiet_app; auto.
    + exact K4.
  - repeat split; auto.
    unfold propagated in *; simpl. rewrite Ho in H3. exact H3.
Qed.

Lemma triple_call {X} (P : Globals -> Prop) (c : Call X) :
  (forall l, rel l (snd (lib_call c l))) ->
  (forall r, ok (EvCall c r)) ->
  (forall g, P g -> E g) ->
  triple rel ok E P (call c) (fun _ g => P g).
Proof.
  intros Hrel Hok HE s Hs; unfold call, propagated, quiet; simpl.
  repeat split; auto.
  - destruct (fst (lib_call c (lib s))) as [x|e] eqn:Hc; simpl.
    + repeat constructor.
    + exists [], (EvCall c (Raised e)). repeat split; auto; constructor.
  - destruct (fst (lib_call c (lib s))); auto.
Qed.

Lemma triple_print (P : Globals -> Prop) line :
  ok (EvPrint line) -> triple rel ok E P (print line) (fun _ g => P g).
Proof.
  intros Hok s Hs; unfold print, propagated, quiet; simpl.
  repeat split; auto.
Qed.

Lemma triple_lookup {A} (P : Globals -> Prop) name (field : Globals -> option A) :
  (forall g, P g -> E g) ->
  triple rel ok E P (lookup name field) (fun v g => field g = Some v /\ P g).
Proof.
  intros HE s Hs; unfold lookup, propagated, quiet; simpl.
  repeat split; auto.
  - destruct (field (globals s)); constructor.
  - destruct (field (globals s)); auto.
Qed.

Lemma triple_assign (P : Globals -> Prop) set :
  triple rel ok E P (assign set) (fun _ g' => exists g, P g /\ g' = set g).
Proof.
  intros s Hs; unfold assign, propagated, quiet; simpl.
  repeat split; eauto.
Qed.

Lemma triple_subscript {A} (P : Globals -> Prop) (l : list A) i :
  (forall g, P g -> E g) ->
  triple rel ok E P (subscript l i) (fun a g => nth_error l i = Some a /\ P g).
Proof.
  intros HE s Hs; unfold subscript.
  destruct (nth_error l i); unfold ret, raise, propagated, quiet; simpl;
    repeat split; auto.
Qed.

Lemma triple_true_div (P : Globals -> Prop) a b :
  (forall g, P g -> E g) ->
  triple rel ok E P (true_div a b) (fun _ g => P g).
Proof.
  intros HE s Hs; unfold true_div.
  destruct (Qeq_bool b 0); unfold ret, raise, propagated, quiet; simpl;
    repeat split; auto.
Qed.

(** A comprehension keeps what each of its iterations keeps. *)
Lemma triple_mapM {A B} (I : Globals -> Prop) (f : A -> M B) (l : list A) :
  (forall x, In x l -> triple rel ok E I (f x) (fun _ g => I g)) ->
  triple rel ok E I (mapM f l) (fun _ g => I g).
Proof.
  induction l as [|x l IH]; intros Hf; simpl.
  - eapply triple_post; [|apply triple_ret]. simpl; tauto.
  - eapply triple_bind; [apply Hf; left; reflexivity|]. intros y.
    eapply triple_bind; [apply IH; intros; apply Hf; right; assumption|].
    intros ys. eapply triple_post; [|apply triple_ret]. simpl; tauto.
Qed.

(** A loop keeps what each of its iterations keeps. *)
Lemma triple_for_each {A S} (I : Globals -> Prop) (body : A -> S -> M S)
    (l : list A) :
  (forall x acc, In x l -> triple rel ok E I (body x acc) (fun _ g => I g)) ->
  forall acc, triple rel ok E I (for_each l body acc) (fun _ g => I g).
Proof.
  induction l as [|x l IH]; intros Hb acc; simpl.
  - eapply triple_post; [|apply triple_ret]. simpl; tauto.
  - eapply triple_bind; [apply Hb; left; reflexivity|]. intros acc'.
    apply IH. intros; apply Hb; right; assumption.
Qed.


(** Rules for one statement followed by the rest of the program, with
    the invariant [I] kept from statement to statement. *)
Lemma step_call {X B} (I : Globals -> Prop) (c : Call X) (k : X -> M B) Q :
  (forall l, rel l (snd (lib_call c l))) ->
  (forall r, ok (EvCall c r)) ->
  (forall g, I g -> E g) ->
  (forall x, triple rel ok E I (k x) Q) ->
  triple rel ok E I (bind (call c) k) Q.
Proof.
  intros H1 H2 H3 Hk. eapply triple_bind; [apply triple_call; auto|].
  exact Hk.
Qed.

Lemma step_print {B} (I : Globals -> Prop) line (k : unit -> M B) Q :
  ok (EvPrint line) ->
  (forall u, triple rel ok E I (k u) Q) ->
  triple rel ok E I (bind (print line) k) Q.
Proof.
  intros H1 Hk. eapply triple_bind; [apply triple_print; auto|]. exact Hk.
Qed.

Lemma step_lookup {A B} (I : Globals -> Prop) name
    (field : Globals -> option A) (k : A -> M B) Q :
  (forall g, I g -> E g) ->
  (forall v, (exists g, I g /\ field g = Some v) -> triple rel ok E I (k v) Q) ->
  triple rel ok E I (bind (lookup name field) k) Q.
Proof.
  intros HE Hk. eapply triple_bind; [apply triple_lookup; auto|].
  intros v s [Hv Hs]. apply Hk; eauto.
Qed.

Lemma step_assign {B} (I I' : Globals -> Prop) set (k : unit -> M B) Q :
  (forall g, I g -> I' (set g)) ->
  (forall u, triple rel ok E I' (k u) Q) ->
  triple rel ok E I (bind (assign set) k) Q.
Proof.
  intros HI Hk. eapply triple_bind; [apply triple_assign|].
  intros u s (g & Hg & Hs). apply Hk. rewrite Hs. auto.
Qed.

Lemma step_subscript {A B} (I : Globals -> Prop) (l : list A) i
    (k : A -> M B) Q :
  (forall g, I g -> E g) ->
  (forall a, nth_error l i = Some a -> triple rel ok E I (k a) Q) ->
  triple rel ok E I (bind (subscript l i) k) Q.
Proof.
  intros HE Hk. eapply triple_bind; [apply triple_subscript; auto|].
  intros a s [Ha Hs]. apply Hk; auto.
Qed.

Lemma step_true_div {B} (I : Globals -> Prop) a b (k : float -> M B) Q' :
  (forall g, I g -> E g) ->
  (forall q, triple rel ok E I (k q) Q') ->
  triple rel ok E I (bind (true_div a b) k) Q'.
Proof.
  intros HE Hk. eapply triple_bind; [apply triple_true_div; auto|]. exact Hk.
Qed.

Lemma step_block {A B} (I : Globals -> Prop) (m : M A) (k : A -> M B) Q :
  triple rel ok E I m (fun _ g => I g) ->
  (forall a, triple rel ok E I (k a) Q) ->
  triple rel ok E I (bind m k) Q.
Proof. intros Hm Hk. eapply triple_bind; [exact Hm|exact Hk]. Qed.

Lemma last_ret {A} (I : Globals -> Prop) (a : A) :
  triple rel ok E I (ret a) (fun _ g => I g).
Proof. eapply triple_post; [|apply triple_ret]. simpl; tauto. Qed.

Lemma last_call {X} (I : Globals -> Prop) (c : Call X) :
  (forall l, rel l (snd (lib_call c l))) ->
  (forall r, ok (EvCall c r)) ->
  (forall g, I g -> E g) ->
  triple rel ok E I (call c) (fun _ g => I g).
Proof. apply triple_call. Qed.

(** The loop of [calculate_surface] keeps any invariant of the
  namespace. *)
Lemma triple_surface_loop (I : Globals -> Prop) parallel
    (es : list (nat * Cost)) (acc : list Energy) :
  (forall e p l, rel l (snd (lib_call (cost_call e p parallel) l))) ->
  (forall e p r, ok (EvCall (cost_call e p parallel) r)) ->
  (forall line, ok (EvPrint line)) ->
  (forall g, I g -> E g) ->
  triple rel ok E I (for_each es (surface_step parallel) acc) (fun _ g => I g).
Proof.
  intros Re Oe Op HE.
  apply triple_for_each. intros [i e] acc' _. unfold surface_step.
  apply step_lookup; auto. intros d _.
  apply step_subscript; auto. intros k _.
  apply step_print; auto. intros _.
  apply step_lookup; auto. intros ps _.
  apply step_subscript; auto. intros p _.
  apply step_call; auto. intros v.
  apply last_ret.
Qed.

(** [calculate_surface] keeps any invariant of the namespace, makes the
  library state move along [rel] and leaves only events satisfying
  [ok], provided clock readings, evaluations and prints do. *)
Lemma triple_calculate_surface (I : Globals -> Prop) parallel :
  (forall l, rel l (snd (lib_call time_time l))) ->
  (forall e p l, rel l (snd (lib_call (cost_call e p parallel) l))) ->
  (forall r, ok (EvCall time_time r)) ->
  (forall e p r, ok (EvCall (cost_call e p parallel) r)) ->
  (forall line, ok (EvPrint line)) ->
  (forall g, I g -> E g) ->
  triple rel ok E I (calculate_surface parallel) (fun _ g => I g).
Proof.
  intros Rt Re Ot Oe Op HE. unfold calculate_surface.
  apply step_call; auto. intros t0.
  apply step_lookup; auto. intros es _.
  apply step_block; [apply triple_surface_loop; auto|].
  intros s.
  apply step_call; auto. intros t1.
  apply step_print; auto. intros _.
  apply last_ret.
Qed.

End Triples.

(** ** The script reads only its own files *)

Section ScriptTriple.

Context {T : LibTypes} {R : Runtime}.

Lemma triple_script :
  triple any_lib reads_known any_globals any_globals script
         (fun _ g => data g = Some data_dict).
Proof.
  assert (Hrefl : forall l : LibState, any_lib l l) by exact (fun _ => I).
  assert (Htrans : forall a b c : LibState,
             any_lib a b -> any_lib b c -> any_lib a c)
    by exact (fun _ _ _ _ _ => I).
  pose (Inv := fun g : Globals => data g = Some data_dict).
  unfold script.
  apply step_assign with (I' := Inv); auto; [reflexivity|]. intros _.
  apply step_lookup; auto; [exact (fun _ _ => I)|].
  intros d (g & Hg & Hd). assert (d = data_dict) by (unfold Inv in Hg; congruence).
  subst d.
  assert (Hinv : forall g' : Globals, Inv g' -> any_globals g')
    by exact (fun _ _ => I).
  (* hamiltonians *)
  apply step_block; auto.
  { apply triple_mapM; auto. intros [k f] Hin.
    apply step_call; auto; try exact (fun _ => I).
    - intros r. exact (in_map snd _ _ Hin).
    - intros r. apply last_ret; auto. }
  intros hs.
  apply step_assign with (I' := Inv); auto; try exact (fun _ H => H). intros _.
  apply step_lookup; auto. intros hs' _.
  apply step_print; auto; try exact I. intros _.
  (* devices *)
  apply step_block; auto.
  { apply triple_mapM; auto. intros i _.
    apply last_call; auto; exact (fun _ => I). }
  intros d4.
  apply step_assign with (I' := Inv); auto; try exact (fun _ H => H). intros _.
  apply step_block; auto.
  { apply triple_mapM; auto. intros i _.
    apply last_call; auto; exact (fun _ => I). }
  intros d7.
  apply step_assign with (I' := Inv); auto; try exact (fun _ H => H). intros _.
  apply step_lookup; auto. intros d4' _.
  apply step_lookup; auto. intros d7' _.
  apply step_assign with (I' := Inv); auto; try exact (fun _ H => H). intros _.
  (* parameters *)
  apply step_call; auto; try exact (fun _ => I).
  { intros r. reflexivity. }
  intros ps.
  apply step_assign with (I' := Inv); auto; try exact (fun _ H => H). intros _.
  (* energies *)
  apply step_lookup; auto. intros hs'' _.
  apply step_block; auto.
  { apply triple_mapM; auto. intros h _.
    apply step_lookup; auto. intros ds _.
    apply last_call; auto; exact (fun _ => I). }
  intros es.
  apply step_assign with (I' := Inv); auto; try exact (fun _ H => H). intros _.
  (* the two surfaces *)
  apply step_print; auto; try exact I. intros _.
  apply step_block; auto.
  { apply triple_calculate_surface; auto; try exact (fun _ => I);
      try exact (fun _ _ _ => I). }
  intros [s1 t1].
  apply step_assign with (I' := Inv); auto; try exact (fun _ H => H). intros _.
  apply step_assign with (I' := Inv); auto; try exact (fun _ H => H). intros _.
  apply step_print; auto; try exact I. intros _.
  apply step_block; auto.
  { apply triple_calculate_surface; auto; try exact (fun _ => I);
      try exact (fun _ _ _ => I). }
  intros [s2 t2].
  apply step_assign with (I' := Inv); auto; try exact (fun _ H => H). intros _.
  apply step_assign with (I' := Inv); auto; try exact (fun _ H => H). intros _.
  apply step_lookup; auto. intros ts _.
  apply step_lookup; auto. intros tp _.
  apply step_true_div; auto. intros q.
  apply step_print; auto; try exact I. intros _.
  (* the plot *)
  apply step_lookup; auto. intros s3 _.
  apply step_call; auto; try exact (fun _ => I). intros _.
  apply step_call; auto; try exact (fun _ => I). intros _.
  apply step_call; auto; try exact (fun _ => I). intros _.
  apply step_call; auto; try exact (fun _ => I). intros _.
  apply last_call; auto; exact (fun _ => I).
Qed.

End ScriptTriple.

(** ** Lists and projections of traces *)

Section Picks.

Context {A B C : Type}.

Lemma pick_app (f : A -> option B) (l l' : list A) :
  pick f (l ++ l') = (pick f l ++ pick f l')%list.
Proof. unfold pick. apply flat_map_app. Qed.

Lemma pick_cons (f : A -> option B) (x : A) (l : list A) :
  pick f (x :: l) = (match f x with Some y => [y] | None => [] end
                     ++ pick f l)%list.
Proof. reflexivity. Qed.

Lemma pick_map (f : A -> option B) (g : C -> A) (l : list C) :
  pick f (map g l) = pick (fun x => f (g x)) l.
Proof.
  induction l as [|x l IH]; [reflexivity|].
  cbn [map]. rewrite !pick_cons, IH. reflexivity.
Qed.

Lemma pick_flat_map (f : A -> option B) (g : C -> list A) (l : list C) :
  pick f (flat_map g l) = flat_map (fun x => pick f (g x)) l.
Proof.
  induction l as [|x l IH]; [reflexivity|].
  cbn [flat_map]. rewrite pick_app, IH. reflexivity.
Qed.

Lemma pick_some (h : A -> B) (l : list A) :
  pick (fun x => Some (h x)) l = map h l.
Proof. induction l as [|x l IH]; simpl; [reflexivity|]. now rewrite <- IH. Qed.

Lemma pick_none (l : list A) : pick (fun _ => @None B) l = [].
Proof. induction l as [|x l IH]; simpl; auto. Qed.

Lemma flat_map_single (h : A -> B) (l : list A) :
  flat_map (fun x => [h x]) l = map h l.
Proof. induction l as [|x l IH]; simpl; [reflexivity|]. now rewrite IH. Qed.

Lemma flat_map_empty (l : list A) : flat_map (fun _ => @nil B) l = [].
Proof. induction l as [|x l IH]; simpl; auto. Qed.

End Picks.

Lemma map_snd_combine {A B C} (g : B -> C) (l : list A) (r : list B) :
  (List.length r <= List.length l)%nat ->
  map (fun xr => g (snd xr)) (combine l r) = map g r.
Proof.
  revert r. induction l as [|x l IH]; intros [|y r] H; simpl in *;
    try reflexivity; try lia.
  rewrite IH by lia. reflexivity.
Qed.

Lemma map_fst_combine {A B C} (g : A -> C) (l : list A) (r : list B) :
  (List.length l <= List.length r)%nat ->
  map (fun xr => g (fst xr)) (combine l r) = map g l.
Proof.
  revert r. induction l as [|x l IH]; intros [|y r] H; simpl in *;
    try reflexivity; try lia.
  rewrite IH by lia. reflexivity.
Qed.

Lemma Forall2_nth_error {A B} (P : A -> B -> Prop) (l : list A) (r : list B) :
  List.length l = List.length r ->
  (forall i a b, nth_error l i = Some a -> nth_error r i = Some b -> P a b) ->
  Forall2 P l r.
Proof.
  revert r. induction l as [|x l IH]; intros [|y r] Hlen H; simpl in *;
    try discriminate; constructor.
  - exact (H 0%nat x y eq_refl eq_refl).
  - apply IH; [lia|]. intros i a b Ha Hb. exact (H (S i) a b Ha Hb).
Qed.

Lemma agree_length {B} (r r' : list B) :
  (forall j b, nth_error r j = Some b -> nth_error r' j = Some b) ->
  (List.length r <= List.length r')%nat.
Proof.
  revert r'. induction r as [|y r IH]; intros r' H; simpl; [lia|].
  destruct r' as [|y' r'].
  - specialize (H 0%nat y eq_refl). discriminate.
  - simpl. apply le_n_S, IH. intros j b Hj. exact (H (S j) b Hj).
Qed.

Lemma combine_agree {A B} (l : list A) (r r' : list B) :
  List.length r = List.length l ->
  (forall j b, nth_error r j = Some b -> nth_error r' j = Some b) ->
  combine l r = combine l r'.
Proof.
  revert r r'. induction l as [|x l IH]; intros r r' Hlen H; [reflexivity|].
  destruct r as [|y r]; [discriminate|].
  destruct r' as [|y' r'].
  - specialize (H 0%nat y eq_refl). discriminate.
  - simpl. pose proof (H 0%nat y eq_refl) as H0. simpl in H0.
    inversion H0; subst. f_equal. apply IH.
    + simpl in Hlen. lia.
    + intros j b Hj. exact (H (S j) b Hj).
Qed.

Lemma combine_map_r {A B D} (g : B -> D) (l : list A) (r : list B) :
  combine l (map g r) = map (fun x => (fst x, g (snd x))) (combine l r).
Proof.
  revert r. induction l as [|x l IH]; intros [|y r]; simpl; try reflexivity.
  now rewrite IH.
Qed.

Lemma combine_map2 {A B C D} (f : A -> C) (g : B -> D) (l : list A) (r : list B) :
  combine (map f l) (map g r)
  = map (fun x => (f (fst x), g (snd x))) (combine l r).
Proof.
  revert r. induction l as [|x l IH]; intros [|y r]; simpl; try reflexivity.
  now rewrite IH.
Qed.

Lemma map_const {A B} (c : B) (l : list A) :
  map (fun _ => c) l = repeat c (List.length l).
Proof. induction l as [|x l IH]; simpl; [reflexivity|]. now rewrite IH. Qed.

(** ** The claims *)

Section Claims.

Context {T : LibTypes} {R : Runtime}.

(** The parameters of the rows of a run are the first entries of
  [params], one for each cost object. *)
Lemma rows_params (g : Globals) parallel (es : list Cost) (rows : list Row)
    (ps : list Param) :
  params g = Some ps ->
  List.length rows = List.length es ->
  (forall j e row, nth_error es j = Some e -> nth_error rows j = Some row ->
                   row_ok g parallel j e row) ->
  (List.length es <= List.length ps)%nat /\
  combine es (map row_param rows) = combine es ps.
Proof.
  intros Hps Hlen Hrows.
  assert (H : forall j b, nth_error (map row_param rows) j = Some b ->
                          nth_error ps j = Some b).
  { intros j b Hj. rewrite nth_error_map in Hj.
    destruct (nth_error rows j) as [row|] eqn:Hr; [|discriminate].
    inversion Hj; subst.
    destruct (nth_error es j) as [e|] eqn:He.
    - destruct (Hrows j e row He Hr) as (_ & (ps' & Hps' & Hn) & _).
      congruence.
    - apply nth_error_None in He.
      assert (nth_error rows j <> None) by congruence.
      apply nth_error_Some in H. lia. }
  split.
  - rewrite <- Hlen, <- (length_map row_param rows). apply agree_length, H.
  - apply combine_agree; [now rewrite length_map|exact H].
Qed.

(** A library exception seen in the trace of a run that propagates its
    exceptions is the outcome of the run, and nothing follows it. *)
Lemma propagated_last {A} (r : Run A) pre ev post e :
  propagated r ->
  events r = (pre ++ ev :: post)%list ->
  raised_in ev = Some e ->
  post = [] /\ outcome r = Raised (LibraryError e).
Proof.
  unfold propagated. intros Hp Hev Hr.
  assert (Hnq : ~ quiet (events r)).
  { rewrite Hev. intros Hq. apply Forall_app in Hq. destruct Hq as (_ & Hq).
    inversion Hq; subst. congruence. }
  destruct (outcome r) as [a|[n| | |e']]; try contradiction.
  destruct Hp as (pre' & ev' & Hev' & Hq & Hr').
  rewrite Hev in Hev'. clear Hev Hnq.
  revert pre' Hq Hev'. induction pre as [|x pre IH]; intros pre' Hq Hev'.
  - destruct pre' as [|y pre']; simpl in Hev'.
    + inversion Hev'; subst. split; [reflexivity|]. congruence.
    + inversion Hev'; subst. inversion Hq; subst. congruence.
  - destruct pre' as [|y pre']; simpl in Hev'.
    + inversion Hev'; subst. destruct pre; discriminate.
    + inversion Hev'; subst. inversion Hq; subst. eapply IH; eauto.
Qed.

(** Computes a projection of the trace of a run that returned. *)
Ltac pick_trace :=
  unfold evaluated, built, pools, generated, devices_made,
    normal_trace, surface_events;
  repeat rewrite ?pick_app, ?pick_cons, ?pick_map, ?pick_flat_map;
  cbn [generation device_made construction evaluation energy_of clock_read
       plotted xlabel_set file_read raised_in step_events fst snd pick
       flat_map app Bool.eqb];
  repeat rewrite ?pick_some, ?pick_none, ?flat_map_single, ?flat_map_empty,
    ?app_nil_r;
  cbn [app].


Ltac normal_run H :=
  apply returns_run in H; apply script_returns in H;
  destruct H as (hns & d4 & d7 & ps & es & rows1 & rows2 & t0 & t1 & t2 & t3
                 & Hhns & Hd4 & Hd7 & Hes & Hl1 & Hl2 & Hg & Hev & Hr1 & Hr2);
  rewrite ?Hev, ?Hg.

(** C3. The script calls [plt.plot(surface, ...)] with the energies as
  its only array, so matplotlib plots them against their indices: the
  i-th point has x-coordinate i (0, 1, ..., 9), which is different from
  the i-th atomic separation for every i, although the script labels
  the horizontal axis "Atomic separation (Å)". *)
Theorem plot_against_index (l : LibState) :
  outcome (script (start l)) = Returned tt ->
  let evs := events (script (start l)) in
  exists ys,
    pick plotted evs = [(None, ys, 2.2%float, "o")] /\
    pick xlabel_set evs = ["Atomic separation (Å)"] /\
    List.length ys = 10%nat /\
    map fst (plot_points None ys) = map index_float (seq 0 10) /\
    Forall2 (fun x k => PrimFloat.eqb x k = false)
            (map fst (plot_points None ys)) (keys data_dict).
Proof.
  intros H evs. subst evs. normal_run H.
  exists (map row_value rows2).
  pick_trace.
  split; [reflexivity|]. split; [reflexivity|].
  rewrite length_map. split; [exact Hl2|].
  assert (Hx : map fst (plot_points None (map row_value rows2))
               = map index_float (seq 0 10)).
  { unfold plot_points. rewrite length_map, Hl2.
    etransitivity; [apply (map_fst_combine (fun x : float => x))|apply map_id].
    rewrite !length_map, length_seq. lia. }
  split; [exact Hx|].
  rewrite Hx. repeat constructor.
Qed.

(** C4. In a run of the script that returns, ten Hamiltonians [hs] are
  generated from the ten geometry files in the order of [data], whose
  separations increase; the ten cost objects [es] are built from them
  in the same order; and the evaluations made are exactly: each
  [es[i]] once on [params[i]] with [parallel=False], for i = 0..9 in
  order, then each [es[i]] once on [params[i]] with [parallel=True], in
  the same order. *)
Theorem every_hamiltonian_evaluated_once (l : LibState) :
  outcome (script (start l)) = Returned tt ->
  let evs := events (script (start l)) in
  exists hs es ps,
    List.length hs = 10%nat /\ List.length es = 10%nat /\
    (10 <= List.length ps)%nat /\
    increasing (keys data_dict) = true /\
    generated evs = combine (map snd data_dict) hs /\
    built evs = combine hs es /\
    params (globals (final (script (start l)))) = Some ps /\
    evaluated evs
    = (map (fun ep => (fst ep, snd ep, false)) (combine es ps)
       ++ map (fun ep => (fst ep, snd ep, true)) (combine es ps))%list.
Proof.
  intros H evs. apply returns_run in H. apply script_returns in H.
  destruct H as (hns & d4 & d7 & ps & es & rows1 & rows2 & t0 & t1 & t2 & t3
                 & Hhns & Hd4 & Hd7 & Hes & Hl1 & Hl2 & Hg & Hev & Hr1 & Hr2).
  subst evs. rewrite Hev, Hg. clear Hev Hg.
  exists (map fst hns), es, ps.
  rewrite length_map.
  split; [exact Hhns|]. split; [exact Hes|].
  pick_trace.
  assert (P1 : (List.length es <= List.length ps)%nat /\
               combine es (map row_param rows1) = combine es ps).
  { eapply rows_params; [|congruence|exact Hr1]. reflexivity. }
  assert (P2 : (List.length es <= List.length ps)%nat /\
               combine es (map row_param rows2) = combine es ps).
  { eapply rows_params; [|congruence|exact Hr2]. reflexivity. }
  destruct P1 as (Hle & Hc1). destruct P2 as (_ & Hc2).
  split; [lia|]. split; [reflexivity|].
  split; [now rewrite combine_map2|].
  split; [rewrite <- (map_id (combine (map fst hns) es)) at 2;
          apply map_ext; intros []; reflexivity|].
  split; [reflexivity|].
  rewrite map_app, !map_map. cbn [fst].
  f_equal.
  - rewrite <- Hc1, combine_map_r, map_map. reflexivity.
  - rewrite <- Hc2, combine_map_r, map_map. reflexivity.
Qed.

(** C5. In a run of the script that returns, [generate_hamiltonian] is
  called exactly once for each of the ten entries of [data], in order,
  with that entry's file; [hamiltonians] is bound to the ten results in
  that order and is still bound to them when the script ends, as [data]
  is to its literal; the cost objects were built from these same
  Hamiltonians. *)
Theorem one_hamiltonian_per_separation (l : LibState) :
  outcome (script (start l)) = Returned tt ->
  let evs := events (script (start l)) in
  let g := globals (final (script (start l))) in
  exists hns,
    List.length hns = List.length data_dict /\
    List.length data_dict = 10%nat /\
    distinct (keys data_dict) = true /\
    pick generation evs
    = map (fun xr => (Py.str_float (fst (fst xr)), snd (fst xr), 0%Z, 1%Z,
                      "sto-3g", 2%Z, 2%Z, Returned (snd xr)))
          (combine data_dict hns) /\
    data g = Some data_dict /\
    hamiltonians g = Some (map fst hns) /\
    hamiltonians_used evs = map fst hns.
Proof.
  intros H evs g. subst evs g. normal_run H.
  exists hns.
  split; [exact Hhns|]. split; [reflexivity|]. split; [reflexivity|].
  unfold hamiltonians_used. pick_trace.
  split; [reflexivity|]. split; [reflexivity|]. split; [reflexivity|].
  rewrite map_map. cbn [fst snd].
  etransitivity; [apply (map_fst_combine (fun h : Hamiltonian => h))|apply map_id].
  rewrite length_map. lia.
Qed.

(** C6. In a run of the script that returns, exactly fifteen devices
  are created, eight "Aspen-4-4Q-E" then seven "Aspen-7-4Q-C", before
  any cost object is built and before any evaluation; none is created
  afterwards; each of the ten cost objects is built with this same pool;
  and [devs] is bound to it when the script ends. *)
Theorem fixed_device_pool (l : LibState) :
  outcome (script (start l)) = Returned tt ->
  let evs := events (script (start l)) in
  exists d4 d7 pre post,
    List.length d4 = 8%nat /\ List.length d7 = 7%nat /\
    evs = (pre
           ++ (map (fun d => EvCall (qml_device "forest.qvm" "Aspen-4-4Q-E")
                                    (Returned d)) d4
               ++ map (fun d => EvCall (qml_device "forest.qvm" "Aspen-7-4Q-C")
                                       (Returned d)) d7)
           ++ post)%list /\
    pick device_made pre = [] /\ pick device_made post = [] /\
    pick construction pre = [] /\ pick evaluation pre = [] /\
    pools evs = repeat (d4 ++ d7)%list 10 /\
    List.length (pick evaluation post) = 20%nat /\
    devs (globals (final (script (start l)))) = Some (d4 ++ d7)%list.
Proof.
  intros H evs. subst evs. normal_run H.
  exists d4, d7.
  exists (map (fun xr => EvCall (generate_hamiltonian (Py.str_float (fst (fst xr)))
                                   (snd (fst xr)) 0 1 "sto-3g" 2 2)
                                (Returned (snd xr)))
              (combine data_dict hns)
          ++ [EvPrint (Py.str_list (map n_ops (map fst hns)))])%list.
  eexists.
  split; [exact Hd4|]. split; [exact Hd7|].
  split.
  { unfold normal_trace.
    rewrite (map_snd_combine
               (fun d => EvCall (qml_device "forest.qvm" "Aspen-4-4Q-E") (Returned d))
               (Py.range 8) d4) by (unfold Py.range; rewrite length_seq; lia).
    rewrite (map_snd_combine
               (fun d => EvCall (qml_device "forest.qvm" "Aspen-7-4Q-C") (Returned d))
               (Py.range 7) d7) by (unfold Py.range; rewrite length_seq; lia).
    rewrite <- !app_assoc. reflexivity. }
  pick_trace.
  split; [reflexivity|]. split; [reflexivity|]. split; [reflexivity|].
  split; [reflexivity|].
  split.
  { rewrite !map_map. cbn [fst snd]. rewrite map_const, length_combine, length_map.
    rewrite Hhns, Hes. reflexivity. }
  split; [|reflexivity].
  rewrite length_app, !length_map, !length_combine. lia.
Qed.

(** C7. Each file of [data] is named "vqe_parallel/h2_", the separation
  with two decimal places, ".xyz"; every file of the tutorial is under
  the relative directory "vqe_parallel/"; whatever happens in a run,
  [generate_hamiltonian] only reads files of [data] and [np.load] only
  reads "vqe_parallel/RY_params.npy"; and a run that returns reads each
  geometry file once, in order, then the parameter file. *)
Theorem input_files :
  Forall (fun kv => snd kv = "vqe_parallel/h2_" ++ Py.format_2f (fst kv) ++ ".xyz")
         data_dict /\
  Forall (fun f => String.prefix "vqe_parallel/" f = true)
         ("vqe_parallel/RY_params.npy" :: map snd data_dict) /\
  (forall l : LibState, Forall reads_known (events (script (start l)))) /\
  (forall l : LibState,
      outcome (script (start l)) = Returned tt ->
      pick file_read (events (script (start l)))
      = (map snd data_dict ++ ["vqe_parallel/RY_params.npy"])%list).
Proof.
  split; [repeat constructor|].
  split; [repeat constructor|].
  split.
  - intros l. exact (proj1 (proj2 (triple_script (start l) I))).
  - intros l H. normal_run H. pick_trace.
    f_equal. apply (map_fst_combine (fun kv : float * string => snd kv)).
    rewrite Hhns. simpl. lia.
Qed.

(** C8. An exception raised by a library call anywhere in the script,
  or in [calculate_surface], is the outcome of the run, and the call
  that raised it is the last thing the run did: nothing catches it.
  When [calculate_surface] returns, its list has one value for each
  cost object and no evaluation raised: it never returns a partial
  list. *)
Theorem exceptions_propagate :
  (forall (l : LibState) pre ev post e,
      events (script (start l)) = (pre ++ ev :: post)%list ->
      raised_in ev = Some e ->
      post = [] /\ outcome (script (start l)) = Raised (LibraryError e)) /\
  (forall parallel (s : State) pre ev post e,
      events (calculate_surface parallel s) = (pre ++ ev :: post)%list ->
      raised_in ev = Some e ->
      post = [] /\
      outcome (calculate_surface parallel s) = Raised (LibraryError e)) /\
  (forall parallel (s : State) v t es,
      outcome (calculate_surface parallel s) = Returned (v, t) ->
      energies (globals s) = Some es ->
      List.length v = List.length es /\
      quiet (events (calculate_surface parallel s))).
Proof.
  split; [|split].
  - intros l pre ev post e Hev Hr.
    eapply propagated_last; eauto.
    exact (proj1 (proj2 (proj2 (triple_script (start l) I)))).
  - intros parallel s pre ev post e Hev Hr.
    eapply propagated_last; eauto.
    assert (Ht : triple any_lib (fun _ => True) any_globals any_globals
                   (calculate_surface parallel) (fun _ _ => True)).
    { apply triple_calculate_surface; auto; try exact (fun _ => I);
        try exact (fun _ _ _ => I); try exact (fun _ _ _ _ _ => I);
        try exact (fun _ _ => I). }
    exact (proj1 (proj2 (proj2 (Ht s I)))).
  - intros parallel s v t es H Hes.
    assert (Ht : triple any_lib (fun _ => True) any_globals any_globals
                   (calculate_surface parallel) (fun _ _ => True)).
    { apply triple_calculate_surface; auto; try exact (fun _ => I);
        try exact (fun _ _ _ => I); try exact (fun _ _ _ _ _ => I);
        try exact (fun _ _ => I). }
    pose proof (proj1 (proj2 (proj2 (Ht s I)))) as Hp.
    unfold propagated in Hp. rewrite H in Hp.
    split; [|exact Hp].
    apply returns_run, calculate_surface_returns in H.
    destruct H as (es' & rows & t0 & t1 & Hes' & Hlen & Hv & _).
    subst v. rewrite length_map. congruence.
Qed.

(** C9. In a run of the script that returns, the data handed to
  [plt.plot] and the final binding of [surface] are the ten values of
  the evaluations made with [parallel=True]; of the sequential run only
  the elapsed time, bound to [t_seq], is kept. *)
Theorem plot_shows_parallel_run (l : LibState) :
  outcome (script (start l)) = Returned tt ->
  let evs := events (script (start l)) in
  let g := globals (final (script (start l))) in
  pick plotted evs = [(None, pick (energy_of true) evs, 2.2%float, "o")] /\
  surface g = Some (pick (energy_of true) evs) /\
  List.length (pick (energy_of false) evs) = 10%nat /\
  List.length (pick (energy_of true) evs) = 10%nat /\
  exists t0 t1 t2 t3,
    pick clock_read evs = [t0; t1; t2; t3] /\
    t_seq g = Some (t1 - t0)%Q /\ t_par g = Some (t3 - t2)%Q.
Proof.
  intros H evs g. subst evs g. normal_run H.
  pick_trace.
  rewrite !(map_snd_combine row_value) by lia.
  split; [reflexivity|]. split; [reflexivity|].
  rewrite !length_map.
  split; [exact Hl1|]. split; [exact Hl2|].
  exists t0, t1, t2, t3. repeat split; reflexivity.
Qed.


End Claims.

(** ** The simulated runtime meets the assumptions *)

Module SimFacts.

Import Sim.


(** Simulated sequential and parallel evaluations agree within one
  unit. *)
Lemma close_agree (e : Cost) (p : Param) (w w' : World) (x x' : Energy) :
  fst (lib_call (cost_call e p false) w) = Returned x ->
  fst (lib_call (cost_call e p true) w') = Returned x' ->
  close x x'.
Proof.
  simpl. destruct (qvm_up w), (qvm_up w'); simpl; intros H H';
    inversion H; inversion H'; subst. unfold close. lia.
Qed.

End SimFacts.

(** ** The theorems at the simulated runtime *)

Lemma plot_against_index_witness :
  outcome (script (start (R := Sim.runtime) Sim.ready)) = Returned tt /\
  exists ys,
    pick plotted (events (script (start (R := Sim.runtime) Sim.ready)))
    = [(None, ys, 2.2%float, "o")] /\
    pick xlabel_set (events (script (start (R := Sim.runtime) Sim.ready)))
    = ["Atomic separation (Å)"] /\
    List.length ys = 10%nat /\
    map fst (plot_points None ys) = map index_float (seq 0 10) /\
    Forall2 (fun x k => PrimFloat.eqb x k = false)
            (map fst (plot_points None ys)) (keys data_dict).
Proof.
  split; [vm_compute; reflexivity|].
  apply (plot_against_index (R := Sim.runtime) Sim.ready).
  vm_compute; reflexivity.
Defined.

Lemma every_hamiltonian_evaluated_once_witness :
  outcome (script (start (R := Sim.runtime) Sim.ready)) = Returned tt /\
  exists hs es ps,
    List.length hs = 10%nat /\ List.length es = 10%nat /\
    (10 <= List.length ps)%nat /\
    increasing (keys data_dict) = true /\
    generated (events (script (start (R := Sim.runtime) Sim.ready)))
    = combine (map snd data_dict) hs /\
    built (events (script (start (R := Sim.runtime) Sim.ready)))
    = combine hs es /\
    params (globals (final (script (start (R := Sim.runtime) Sim.ready))))
    = Some ps /\
    evaluated (events (script (start (R := Sim.runtime) Sim.ready)))
    = (map (fun ep => (fst ep, snd ep, false)) (combine es ps)
       ++ map (fun ep => (fst ep, snd ep, true)) (combine es ps))%list.
Proof.
  split; [vm_compute; reflexivity|].
  apply (every_hamiltonian_evaluated_once (R := Sim.runtime) Sim.ready).
  vm_compute; reflexivity.
Defined.

Lemma one_hamiltonian_per_separation_witness :
  outcome (script (start (R := Sim.runtime) Sim.ready)) = Returned tt /\
  exists hns,
    List.length hns = List.length data_dict /\
    List.length data_dict = 10%nat /\
    distinct (keys data_dict) = true /\
    pick generation (events (script (start (R := Sim.runtime) Sim.ready)))
    = map (fun xr => (Py.str_float (fst (fst xr)), snd (fst xr), 0%Z, 1%Z,
                      "sto-3g", 2%Z, 2%Z, Returned (snd xr)))
          (combine data_dict hns) /\
    data (globals (final (script (start (R := Sim.runtime) Sim.ready))))
    = Some data_dict /\
    hamiltonians (globals (final (script (start (R := Sim.runtime) Sim.ready))))
    = Some (map fst hns) /\
    hamiltonians_used (events (script (start (R := Sim.runtime) Sim.ready)))
    = map fst hns.
Proof.
  split; [vm_compute; reflexivity|].
  apply (one_hamiltonian_per_separation (R := Sim.runtime) Sim.ready).
  vm_compute; reflexivity.
Defined.

Lemma fixed_device_pool_witness :
  outcome (script (start (R := Sim.runtime) Sim.ready)) = Returned tt /\
  exists d4 d7 pre post,
    List.length d4 = 8%nat /\ List.length d7 = 7%nat /\
    events (script (start (R := Sim.runtime) Sim.ready))
    = (pre
       ++ (map (fun d => EvCall (qml_device "forest.qvm" "Aspen-4-4Q-E")
                                (Returned d)) d4
           ++ map (fun d => EvCall (qml_device "forest.qvm" "Aspen-7-4Q-C")
                                   (Returned d)) d7)
       ++ post)%list /\
    pick device_made pre = [] /\ pick device_made post = [] /\
    pick construction pre = [] /\ pick evaluation pre = [] /\
    pools (events (script (start (R := Sim.runtime) Sim.ready)))
    = repeat (d4 ++ d7)%list 10 /\
    List.length (pick evaluation post) = 20%nat /\
    devs (globals (final (script (start (R := Sim.runtime) Sim.ready))))
    = Some (d4 ++ d7)%list.
Proof.
  split; [vm_compute; reflexivity|].
  apply (fixed_device_pool (R := Sim.runtime) Sim.ready).
  vm_compute; reflexivity.
Defined.

Lemma input_files_witness :
  outcome (script (start (R := Sim.runtime) Sim.ready)) = Returned tt /\
  pick file_read (events (script (start (R := Sim.runtime) Sim.ready)))
  = (map snd data_dict ++ ["vqe_parallel/RY_params.npy"])%list.
Proof.
  split; [vm_compute; reflexivity|].
  apply (proj2 (proj2 (proj2 (input_files (R := Sim.runtime)))) Sim.ready).
  vm_compute; reflexivity.
Defined.

Lemma exceptions_propagate_witness :
  events (script (start (R := Sim.runtime) Sim.no_params))
  = (removelast (events (script (start (R := Sim.runtime) Sim.no_params)))
     ++ [EvCall (T := Sim.types) (np_load "vqe_parallel/RY_params.npy")
                (Raised "FileNotFoundError")])%list /\
  outcome (script (start (R := Sim.runtime) Sim.no_params))
  = Raised (LibraryError (T := Sim.types) "FileNotFoundError").
Proof.
  assert (H : events (script (start (R := Sim.runtime) Sim.no_params))
              = (removelast (events (script (start (R := Sim.runtime) Sim.no_params)))
                 ++ [EvCall (T := Sim.types)
                            (np_load "vqe_parallel/RY_params.npy")
                            (Raised "FileNotFoundError")])%list)
    by (vm_compute; reflexivity).
  split; [exact H|].
  exact (proj2 (proj1 (exceptions_propagate (R := Sim.runtime))
                  Sim.no_params _ _ [] "FileNotFoundError" H eq_refl)).
Defined.

Lemma plot_shows_parallel_run_witness :
  outcome (script (start (R := Sim.runtime) Sim.ready)) = Returned tt /\
  pick plotted (events (script (start (R := Sim.runtime) Sim.ready)))
  = [(None,
      pick (energy_of true) (events (script (start (R := Sim.runtime) Sim.ready))),
      2.2%float, "o")] /\
  surface (globals (final (script (start (R := Sim.runtime) Sim.ready))))
  = Some (pick (energy_of true)
               (events (script (start (R := Sim.runtime) Sim.ready)))) /\
  List.length (pick (energy_of false)
                    (events (script (start (R := Sim.runtime) Sim.ready))))
  = 10%nat /\
  List.length (pick (energy_of true)
                    (events (script (start (R := Sim.runtime) Sim.ready))))
  = 10%nat /\
  exists t0 t1 t2 t3,
    pick clock_read (events (script (start (R := Sim.runtime) Sim.ready)))
    = [t0; t1; t2; t3] /\
    t_seq (globals (final (script (start (R := Sim.runtime) Sim.ready))))
    = Some (t1 - t0)%Q /\
    t_par (globals (final (script (start (R := Sim.runtime) Sim.ready))))
    = Some (t3 - t2)%Q.
Proof.
  split; [vm_compute; reflexivity|].
  apply (plot_shows_parallel_run (R := Sim.runtime) Sim.ready).
  vm_compute; reflexivity.
Defined.


(** * Further properties *)

(** ** Rules for following a run *)

Section StepRules.

Context {T : LibTypes} {R : Runtime}.
Local Open Scope script_scope.

Variable A : Type.
Variable Post : A -> Globals -> list Event -> Prop.
Variable Exc : exn -> Globals -> list Event -> Prop.

Lemma bind_assoc_at {B C} (m : M B) (k1 : B -> M C) (k2 : C -> M A) s :
  bind (bind m k1) k2 s = bind m (fun b => bind (k1 b) k2) s.
Proof.
  unfold bind. destruct (outcome (m s)) as [b|x]; simpl; [|reflexivity].
  destruct (outcome (k1 b (final (m s)))) as [c|x]; simpl; [|reflexivity].
  now rewrite app_assoc.
Qed.

Lemma bind_ret_at {B} (b : B) (k : B -> M A) s : bind (ret b) k s = k b s.
Proof. unfold bind, ret; simpl. destruct (k b s); reflexivity. Qed.

Lemma bind_ext_at {B} (m : M B) (k k' : B -> M A) s :
  (forall b s', k b s' = k' b s') -> bind m k s = bind m k' s.
Proof.
  intros Hk. unfold bind. destruct (outcome (m s)); simpl; [|reflexivity].
  now rewrite Hk.
Qed.

Lemma runs_ext G H (m m' : M A) :
  (forall s, m s = m' s) -> runs G H m' Post Exc -> runs G H m Post Exc.
Proof. intros Heq Hr l. unfold runs in *. rewrite Heq. apply Hr. Qed.

Lemma runs_ret G H (a : A) : Post a G H -> runs G H (ret a) Post Exc.
Proof. intros HQ l; simpl. now rewrite app_nil_r. Qed.

Lemma runs_tail G H (m : M A) :
  runs G H (bind m (fun a => ret a)) Post Exc -> runs G H m Post Exc.
Proof.
  intros Hr l. specialize (Hr l). unfold bind, ret in Hr; simpl in *.
  destruct (outcome (m {| globals := G; lib := l |})); simpl in *;
    [rewrite app_nil_r in Hr|]; exact Hr.
Qed.

Lemma runs_assoc {B C} G H (m : M B) (k1 : B -> M C) (k2 : C -> M A) :
  runs G H (bind m (fun b => bind (k1 b) k2)) Post Exc ->
  runs G H (bind (bind m k1) k2) Post Exc.
Proof. intros Hr l. unfold runs in *. rewrite bind_assoc_at. apply Hr. Qed.

Lemma runs_ret_bind {B} G H (b : B) (k : B -> M A) :
  runs G H (k b) Post Exc -> runs G H (bind (ret b) k) Post Exc.
Proof. intros Hr l. specialize (Hr l). unfold bind, ret; simpl. exact Hr. Qed.

Lemma runs_call {X} G H (c : Call X) (k : X -> M A) :
  (forall x, runs G (H ++ [EvCall c (Returned x)]) (k x) Post Exc) ->
  (forall e, Exc (LibraryError e) G (H ++ [EvCall c (Raised e)])%list) ->
  runs G H (bind (call c) k) Post Exc.
Proof.
  intros Hk He l. unfold bind, call; simpl.
  destruct (fst (lib_call c l)) as [x|e] eqn:Hc; simpl.
  - specialize (Hk x (snd (lib_call c l))). simpl in Hk.
    rewrite <- app_assoc in Hk. exact Hk.
  - apply He.
Qed.

Lemma runs_print G H line (k : unit -> M A) :
  runs G (H ++ [EvPrint line]) (k tt) Post Exc ->
  runs G H (bind (print line) k) Post Exc.
Proof.
  intros Hk l. unfold bind, print; simpl.
  specialize (Hk l). simpl in Hk. rewrite <- app_assoc in Hk. exact Hk.
Qed.

Lemma runs_lookup {B} G H name (field : Globals -> option B) (k : B -> M A) :
  match field G with
  | Some v => runs G H (k v) Post Exc
  | None => Exc (NameError name) G H
  end ->
  runs G H (bind (lookup name field) k) Post Exc.
Proof.
  intros Hk l. unfold bind, lookup; simpl.
  destruct (field G) as [v|]; simpl.
  - apply Hk.
  - now rewrite app_nil_r.
Qed.

Lemma runs_assign G H set (k : unit -> M A) :
  runs (set G) H (k tt) Post Exc -> runs G H (bind (assign set) k) Post Exc.
Proof. intros Hk l. unfold bind, assign; simpl. apply Hk. Qed.

Lemma runs_subscript {B} G H (l : list B) i (k : B -> M A) :
  (forall b, nth_error l i = Some b -> runs G H (k b) Post Exc) ->
  (nth_error l i = None -> Exc IndexError G H) ->
  runs G H (bind (subscript l i) k) Post Exc.
Proof.
  intros Hk He w. unfold bind, subscript.
  destruct (nth_error l i) as [b|]; simpl.
  - apply (Hk b eq_refl).
  - rewrite app_nil_r. now apply He.
Qed.

Lemma runs_true_div G H a b (k : float -> M A) :
  (Qeq_bool b 0 = false ->
   runs G H (k (Py.binary64 a / Py.binary64 b)%float) Post Exc) ->
  (Qeq_bool b 0 = true -> Exc ZeroDivisionError G H) ->
  runs G H (bind (true_div a b) k) Post Exc.
Proof.
  intros Hk He w. unfold bind, true_div.
  destruct (Qeq_bool b 0); simpl.
  - rewrite app_nil_r. now apply He.
  - now apply Hk.
Qed.

Lemma runs_mapM_nil {B C} G H (f : B -> M C) (k : list C -> M A) :
  runs G H (k []) Post Exc -> runs G H (bind (mapM f []) k) Post Exc.
Proof. apply runs_ret_bind. Qed.

Lemma runs_mapM_cons {B C} G H (f : B -> M C) x l (k : list C -> M A) :
  runs G H (bind (f x) (fun y => bind (mapM f l) (fun ys => k (y :: ys))))
       Post Exc ->
  runs G H (bind (mapM f (x :: l)) k) Post Exc.
Proof.
  apply runs_ext. intros s. simpl mapM. rewrite bind_assoc_at.
  apply bind_ext_at. intros y s1. rewrite bind_assoc_at.
  apply bind_ext_at. intros ys s2. apply bind_ret_at.
Qed.

Lemma runs_for_each_nil {B S} G H (body : B -> S -> M S) acc (k : S -> M A) :
  runs G H (k acc) Post Exc -> runs G H (bind (for_each [] body acc) k) Post Exc.
Proof. apply runs_ret_bind. Qed.

Lemma runs_for_each_cons {B S} G H (body : B -> S -> M S) x l acc
    (k : S -> M A) :
  runs G H (bind (body x acc) (fun acc' => bind (for_each l body acc') k)) Post Exc ->
  runs G H (bind (for_each (x :: l) body acc) k) Post Exc.
Proof. intros Hr. simpl. apply runs_assoc. exact Hr. Qed.

End StepRules.

Lemma nth_error_lt {B} (l : list B) i b :
  nth_error l i = Some b -> (i < List.length l)%nat.
Proof. intros H. apply nth_error_Some. congruence. Qed.

Lemma nth_error_ge {B} (l : list B) i :
  nth_error l i = None -> (List.length l <= i)%nat.
Proof. apply nth_error_None. Qed.

(** Follows a program one statement at a time; [exc] settles what is
    owed when a statement raises, [fin] what is owed when the program
    returns. *)
Ltac step exc fin :=
  cbv beta;
  lazymatch goal with
  | |- runs _ _ (bind (bind _ _) _) _ _ => apply runs_assoc
  | |- runs _ _ (bind (ret _) _) _ _ => apply runs_ret_bind
  | |- runs _ _ (bind (call _) _) _ _ =>
      apply runs_call; [intros ?; cbn [app]|intros ?; exc]
  | |- runs _ _ (bind (print (_ ++ Py.str_float ?k ++ _)) _) _ _ =>
      let v := eval vm_compute in (Py.str_float k) in
      replace (Py.str_float k) with v by (vm_compute; reflexivity);
      apply runs_print; cbn [app]
  | |- runs _ _ (bind (print _) _) _ _ => apply runs_print; cbn [app]
  | |- runs _ _ (bind (lookup _ _) _) _ _ =>
      apply runs_lookup;
      cbn [data hamiltonians devs_4 devs_7 devs params energies surface
           t_seq t_par set_data set_hamiltonians set_devs_4 set_devs_7
           set_devs set_params set_energies set_surface set_t_seq set_t_par
           unbound]
  | |- runs _ _ (bind (assign _) _) _ _ => apply runs_assign
  | |- runs _ _ (bind (subscript (keys data_dict) _) _) _ _ =>
      apply runs_subscript;
      [ let b := fresh "k" in
        let Hb := fresh in
        intros b Hb; cbv [keys data_dict map nth_error fst] in Hb;
        injection Hb as Hb; subst b
      | let Hn := fresh in
        intros Hn; cbv [keys data_dict map nth_error fst] in Hn;
        discriminate Hn ]
  | |- runs _ _ (bind (subscript _ _) _) _ _ =>
      apply runs_subscript;
      [ let b := fresh "p" in
        let Hb := fresh "Hsome" in
        intros b Hb
      | let Hn := fresh "Hnone" in
        intros Hn; exc ]
  | |- runs _ _ (bind (true_div _ _) _) _ _ =>
      apply runs_true_div;
      [ let Hd := fresh "Hdiv" in intros Hd
      | let Hd := fresh "Hdiv" in intros Hd; exc ]
  | |- runs _ _ (bind (mapM _ []) _) _ _ => apply runs_mapM_nil
  | |- runs _ _ (bind (mapM _ (_ :: _)) _) _ _ => apply runs_mapM_cons
  | |- runs _ _ (bind (mapM ?f ?l) ?k) _ _ =>
      let l' := eval cbv [items data_dict Py.range seq] in l in
      change (mapM f l) with (mapM f l')
  | |- runs _ _ (bind (for_each [] _ _) _) _ _ => apply runs_for_each_nil
  | |- runs _ _ (bind (for_each (_ :: _) _ _) _) _ _ =>
      apply runs_for_each_cons
  | |- runs _ _ (bind (for_each ?l ?b ?a) ?k) _ _ =>
      let l' := eval cbv [Py.enumerate combine seq List.length] in l in
      change (for_each l b a) with (for_each l' b a)
  | |- runs _ _ (bind (calculate_surface _) _) _ _ => unfold calculate_surface
  | |- runs _ _ (bind (surface_step _ _ _) _) _ _ => unfold surface_step
  | |- runs _ _ (bind (let (_, _) := _ in _) _) _ _ => cbv iota
  | |- runs _ _ (bind ((let (_, _) := _ in _) _) _) _ _ => cbv iota
  | |- runs _ _ (let (_, _) := _ in _) _ _ => cbv iota
  | |- runs _ _ (ret _) _ _ => apply runs_ret; fin
  | |- runs _ _ (bind _ _) _ _ => fail "statement not covered"
  | |- runs _ _ _ _ _ => apply runs_tail
  end.

(** The events so far follow the order of the script. *)
Ltac in_order :=
  lazymatch goal with
  | |- initial_segment (map kind ?h) script_kinds =>
      exists (skipn (List.length h) script_kinds); reflexivity
  end.

(** The number of evaluations so far, computed. *)
Ltac count_evaluated :=
  repeat match goal with
  | |- context [List.length (evaluated ?h)] =>
      let n := eval lazy in (List.length (evaluated h)) in
      change (List.length (evaluated h)) with n
  end.

(** What the passes have bound, read off the events so far. *)
Ltac passes :=
  lazy [bound_by_passes pick flat_map clock_read app];
  split; [reflexivity|split; reflexivity].

(** Settles [script_failed] at a statement that raised. *)
Ltac failed :=
  idtac;
  lazymatch goal with
  | |- script_failed (LibraryError _) _ (?h ++ [?ev]) =>
      split; [in_order|]; split; [passes|];
      exists h, ev; split; [reflexivity|]; split; [repeat constructor|];
      reflexivity
  | |- script_failed IndexError _ _ =>
      first
        [ exfalso; congruence
        | split; [in_order|]; split; [passes|];
          eexists; split; [reflexivity|];
          repeat match goal with
          | H : nth_error _ _ = Some _ |- _ => apply nth_error_lt in H
          | H : nth_error _ _ = None |- _ => apply nth_error_ge in H
          end;
          split; [lia|]; count_evaluated;
          split; [lia|]; split; [repeat constructor|];
          split; reflexivity ]
  | |- script_failed ZeroDivisionError _ _ =>
      split; [in_order|]; split; [passes|];
      do 4 eexists; split; [reflexivity|]; split; [eassumption|];
      repeat split; reflexivity
  end.

(** Settles [script_completed] when the script returned. *)
Ltac completed :=
  idtac;
  split; [reflexivity|]; split; [repeat constructor|]; split; [passes|];
  split;
  [ eexists; split; [reflexivity|];
    repeat match goal with
    | H : nth_error _ _ = Some _ |- _ => apply nth_error_lt in H
    end; lia
  | do 5 eexists; split; [reflexivity|]; split; [reflexivity|];
    split; [eassumption|reflexivity] ].

Section Outcomes.

Context {T : LibTypes} {R : Runtime}.

Lemma script_runs :
  runs unbound [] script (fun _ g h => script_completed g h) script_failed.
Proof.
  unfold script.
  repeat step failed completed.
Qed.

(** The outcome of the script, classified. *)
Lemma script_outcome (l : LibState) :
  match outcome (script (start l)) with
  | Returned _ =>
      script_completed (globals (final (script (start l))))
                       (events (script (start l)))
  | Raised x =>
      script_failed x (globals (final (script (start l))))
                    (events (script (start l)))
  end.
Proof. exact (script_runs l). Qed.

Lemma quiet_not_raised (pre : list Event) ev e :
  raised_in ev = Some e -> ~ quiet (pre ++ [ev]).
Proof.
  intros Hr Hq. apply Forall_app in Hq. destruct Hq as (_ & Hq).
  inversion Hq; subst. congruence.
Qed.

(** X1. The script never raises [NameError]: every module-level name is
    bound before it is read, whatever the libraries answer. *)
Theorem script_never_name_error (l : LibState) (name : string) :
  outcome (script (start l)) <> Raised (NameError name).
Proof.
  intros H. pose proof (script_outcome l) as Ho. rewrite H in Ho.
  exact (proj2 (proj2 Ho)).
Qed.

(** X2. The script raises [IndexError] only when [np.load] returned
    fewer than ten parameters, and then it does so in the sequential
    pass: exactly [len(params)] evaluations were made, all with
    [parallel=False]; nothing is plotted and [surface] is never bound. *)
Theorem script_index_error (l : LibState) :
  outcome (script (start l)) = Raised IndexError ->
  let evs := events (script (start l)) in
  exists ps,
    pick loaded evs = [ps] /\ (List.length ps < 10)%nat /\
    List.length (evaluated evs) = List.length ps /\
    Forall (fun c => snd c = false) (evaluated evs) /\
    pick plotted evs = [] /\
    surface (globals (final (script (start l)))) = None.
Proof.
  intros H evs. pose proof (script_outcome l) as Ho. rewrite H in Ho.
  exact (proj2 (proj2 Ho)).
Qed.

(** X3. The script raises [ZeroDivisionError] only at the speedup, when
    the two clock readings of the parallel pass are equal: both passes
    have then been evaluated completely, [surface] and [t_par] are
    bound, and nothing is plotted. *)
Theorem script_zero_division (l : LibState) :
  outcome (script (start l)) = Raised ZeroDivisionError ->
  let evs := events (script (start l)) in
  let g := globals (final (script (start l))) in
  exists t0 t1 t2 t3,
    pick clock_read evs = [t0; t1; t2; t3] /\
    Qeq_bool (t3 - t2) 0 = true /\
    List.length (evaluated evs) = 20%nat /\
    pick plotted evs = [] /\
    t_par g = Some (t3 - t2)%Q /\
    surface g = Some (pick (energy_of true) evs).
Proof.
  intros H evs g. pose proof (script_outcome l) as Ho. rewrite H in Ho.
  exact (proj2 (proj2 Ho)).
Qed.

(** X4. The script runs to its end exactly when no library call raises,
    [np.load] returns at least ten parameters and the two clock
    readings of the parallel pass differ. *)
Theorem script_completes_iff (l : LibState) :
  let evs := events (script (start l)) in
  outcome (script (start l)) = Returned tt <->
  quiet evs /\
  (exists ps, pick loaded evs = [ps] /\ (10 <= List.length ps)%nat) /\
  (exists t0 t1 t2 t3,
      pick clock_read evs = [t0; t1; t2; t3] /\ Qeq_bool (t3 - t2) 0 = false).
Proof.
  intros evs. subst evs. pose proof (script_outcome l) as Ho. split.
  - intros H. rewrite H in Ho.
    destruct Ho as (_ & Hq & _ & Hps & (hs & t0 & t1 & t2 & t3 & _ & Ht & Hd & _)).
    split; [exact Hq|]. split; [exact Hps|].
    exists t0, t1, t2, t3. split; [exact Ht|exact Hd].
  - intros (Hq & (ps & Hps & Hlen) & (t0 & t1 & t2 & t3 & Ht & Hd)).
    destruct (outcome (script (start l))) as [[]|x]; [reflexivity|].
    exfalso. destruct Ho as (_ & _ & Ho).
    destruct x as [n| | |e].
    + exact Ho.
    + destruct Ho as (ps' & Hps' & Hlen' & _).
      rewrite Hps in Hps'. inversion Hps'; subst. lia.
    + destruct Ho as (u0 & u1 & u2 & u3 & Hu & Hz & _).
      rewrite Ht in Hu. inversion Hu; subst. congruence.
    + destruct Ho as (pre & ev & He & _ & Hr).
      rewrite He in Hq. eapply quiet_not_raised; [exact Hr|exact Hq].
Qed.

(** X5. Whatever the libraries answer, the script's calls and prints
    follow one fixed order: their kinds form an initial segment of
    [script_kinds], and the whole of it when the script returns. *)
Theorem script_order (l : LibState) :
  initial_segment (map kind (events (script (start l)))) script_kinds /\
  (outcome (script (start l)) = Returned tt ->
   map kind (events (script (start l))) = script_kinds).
Proof.
  pose proof (script_outcome l) as Ho.
  destruct (outcome (script (start l))) as [[]|x].
  - destruct Ho as (Hk & _). split; [|intros _; exact Hk].
    exists []. now rewrite Hk, app_nil_r.
  - split; [exact (proj1 Ho)|discriminate].
Qed.

(** X6. Whatever the outcome of the script, [surface], [t_seq] and
    [t_par] are bound as the passes completed: none of them before the
    sequential pass has read the clock twice; from then on [surface]
    holds the sequential energies and [t_seq] the time of that pass;
    and once the parallel pass has read the clock twice, [surface] holds
    the parallel energies instead and [t_par] the time of that pass. *)
Theorem namespace_follows_passes (l : LibState) :
  bound_by_passes (globals (final (script (start l))))
                  (events (script (start l))).
Proof.
  pose proof (script_outcome l) as Ho.
  destruct (outcome (script (start l))) as [u|x].
  - exact (proj1 (proj2 (proj2 Ho))).
  - exact (proj1 (proj2 Ho)).
Qed.

(** X7. When the script returns, its console shows, in order: the
    numbers of terms of the ten Hamiltonians, the header of the
    sequential pass, ten progress lines naming the separations 0.3,
    0.5, ..., 2.1, the time [t_seq] of the pass with two decimals, the
    same for the parallel pass and [t_par] after a blank line, and the
    quotient of [t_seq] by [t_par], divided in binary64, with two
    decimals. *)
Theorem script_console (l : LibState) :
  outcome (script (start l)) = Returned tt ->
  let evs := events (script (start l)) in
  let g := globals (final (script (start l))) in
  exists hs ts tp,
    hamiltonians g = Some hs /\
    t_seq g = Some ts /\ t_par g = Some tp /\
    pick printed evs = transcript (map n_ops hs) ts tp.
Proof.
  intros H evs g. subst evs g. pose proof (script_outcome l) as Ho.
  rewrite H in Ho.
  destruct Ho as (_ & _ & Hb & _ & (hs & t0 & t1 & t2 & t3 & Hh & Ht & _ & Hp)).
  unfold bound_by_passes in Hb. rewrite Ht in Hb.
  destruct Hb as (_ & Hs & Hp').
  exists hs, (t1 - t0)%Q, (t3 - t2)%Q. auto.
Qed.


End Outcomes.

(** ** How [calculate_surface] ends *)

Lemma firstn_snoc {A} (l : list A) i x :
  nth_error l i = Some x -> firstn (S i) l = (firstn i l ++ [x])%list.
Proof.
  revert i. induction l as [|a l IH]; intros [|i] H; simpl in *;
    try discriminate.
  - now inversion H.
  - now rewrite <- IH.
Qed.

Lemma nth_error_combine {A B} (l : list A) (r : list B) i a b :
  nth_error l i = Some a -> nth_error r i = Some b ->
  nth_error (combine l r) i = Some (a, b).
Proof.
  revert r i. induction l as [|x l IH]; intros [|y r] [|i] Ha Hb; simpl in *;
    try discriminate.
  - now inversion Ha; inversion Hb.
  - now apply IH.
Qed.

Lemma initial_segment_firstn {A} (l : list A) i : initial_segment (firstn i l) l.
Proof. exists (skipn i l). symmetry. apply firstn_skipn. Qed.

Lemma skipn_cons_nth {A} (l : list A) i x rest :
  skipn i l = x :: rest -> nth_error l i = Some x /\ skipn (S i) l = rest.
Proof.
  revert i. induction l as [|a l IH]; intros [|i] H; simpl in *;
    try discriminate.
  - now inversion H.
  - now apply IH.
Qed.

Section SurfaceRuns.

Context {T : LibTypes} {R : Runtime}.
Local Open Scope script_scope.

Lemma evaluated_app (a b : list Event) :
  evaluated (a ++ b) = (evaluated a ++ evaluated b)%list.
Proof. unfold evaluated. now rewrite pick_app, map_app. Qed.

Lemma due_bound parallel G es ps :
  energies G = Some es -> params G = Some ps ->
  due parallel G = map (fun ep => (fst ep, snd ep, parallel)) (combine es ps).
Proof. intros He Hp. unfold due. now rewrite He, Hp. Qed.

Lemma due_length parallel G es :
  energies G = Some es -> (List.length (due parallel G) <= List.length es)%nat.
Proof.
  intros He. unfold due. rewrite He. destruct (params G); simpl; [|lia].
  rewrite length_map, length_combine. lia.
Qed.

Variable parallel : bool.
Variable G : Globals.
Variable es : list Cost.
Hypothesis Hes : energies G = Some es.

Variable A : Type.
Variable Post : A -> Globals -> list Event -> Prop.
Variable Exc : exn -> Globals -> list Event -> Prop.

(** The loop of [calculate_surface], from iteration [i] on. *)
Lemma runs_surface_loop (k : list Energy -> M A) :
  (forall x h, surface_failed parallel x G h -> Exc x G h) ->
  forall rest i acc H,
    skipn i es = rest ->
    before_iteration parallel G i H ->
    (forall vs H', before_iteration parallel G (List.length es) H' ->
                   runs G H' (k vs) Post Exc) ->
    runs G H (bind (for_each (combine (seq i (List.length rest)) rest)
                             (surface_step parallel) acc) k) Post Exc.
Proof.
  intros Hx rest. induction rest as [|e rest IH]; intros i acc H Hs Hi Hk.
  - apply runs_for_each_nil. apply Hk.
    assert (Hle : (List.length es <= i)%nat).
    { destruct (Nat.le_gt_cases (List.length es) i) as [Hl|Hl]; [exact Hl|].
      apply (f_equal (@List.length _)) in Hs. rewrite length_skipn in Hs.
      simpl in Hs. lia. }
    destruct Hi as (Hb & Hd & Hp & Hev & Hn & Hpr).
    assert (Hi : i = List.length es).
    { pose proof (due_length parallel G Hes) as Hdl.
      pose proof Hn as Hn'. rewrite Hev, length_firstn in Hn'. lia. }
    rewrite <- Hi. exact (conj Hb (conj Hd (conj Hp (conj Hev (conj Hn Hpr))))).
  - apply skipn_cons_nth in Hs. destruct Hs as (He & Hs).
    pose proof (nth_error_lt _ _ He) as Hei.
    destruct Hi as (Hb & Hd & Hp & Hev & Hn & Hpr).
    cbn [List.length seq combine].
    apply runs_for_each_cons. unfold surface_step at 1.
    apply runs_assoc. apply runs_lookup.
    destruct (data G) as [d|] eqn:Hdata.
    2:{ apply Hx. split.
        - rewrite Hev. apply initial_segment_firstn.
        - destruct i as [|i].
          + split; [rewrite Hev; reflexivity|]. right; left. auto.
          + exfalso. apply (proj1 (Hb ltac:(lia))). reflexivity. }
    specialize (Hd d eq_refl).
    apply runs_assoc. apply runs_subscript.
    2:{ intros Hnone. apply Hx. split.
        - rewrite Hev. apply initial_segment_firstn.
        - exists es, d. split; [exact Hes|]. split; [exact Hdata|].
          apply nth_error_ge in Hnone. unfold keys in Hnone.
          rewrite length_map in Hnone.
          split; [lia|].
          destruct (params G) as [ps|] eqn:Hparams.
          + specialize (Hp ps eq_refl). lia.
          + destruct i as [|i].
            * split; [rewrite Hev; reflexivity|].
              destruct d; [reflexivity|simpl in Hnone; lia].
            * exfalso. apply (proj2 (Hb ltac:(lia))). reflexivity. }
    intros key Hkey.
    apply runs_assoc. apply runs_print.
    apply runs_assoc. apply runs_lookup.
    destruct (params G) as [ps|] eqn:Hparams.
    2:{ apply Hx. split.
        - rewrite evaluated_app, app_nil_r, Hev. apply initial_segment_firstn.
        - destruct i as [|i].
          + split; [rewrite evaluated_app, app_nil_r, Hev; reflexivity|].
            right; right. auto.
          + exfalso. apply (proj2 (Hb ltac:(lia))). reflexivity. }
    specialize (Hp ps eq_refl).
    apply runs_assoc. apply runs_subscript.
    2:{ intros Hnone. apply Hx. split.
        - rewrite evaluated_app, app_nil_r, Hev. apply initial_segment_firstn.
        - exists es, d. split; [exact Hes|]. split; [exact Hdata|].
          rewrite evaluated_app, app_nil_r.
          apply nth_error_ge in Hnone. rewrite Hparams.
          apply nth_error_lt in Hkey. unfold keys in Hkey.
          rewrite length_map in Hkey.
          split; lia. }
    intros p Hpar.
    assert (Hnext : firstn (S i) (due parallel G)
                    = (firstn i (due parallel G) ++ [(e, p, parallel)])%list).
    { apply firstn_snoc. rewrite (due_bound parallel G Hes Hparams).
      rewrite nth_error_map. erewrite nth_error_combine by eassumption.
      reflexivity. }
    assert (Hline : firstn (S i) (separations G)
                    = (firstn i (separations G) ++ [key])%list).
    { apply firstn_snoc. unfold separations. rewrite Hdata. exact Hkey. }
    assert (Hevs : forall r,
               evaluated ((H ++ [EvPrint (progress_line key)])
                          ++ [EvCall (cost_call e p parallel) r])
               = firstn (S i) (due parallel G)).
    { intros r. rewrite !evaluated_app, Hev, Hnext, app_nil_r. reflexivity. }
    apply runs_assoc. apply runs_call.
    2:{ intros x. apply Hx. split; [|exact I].
        unfold progress_line in Hevs. rewrite Hevs.
        apply initial_segment_firstn. }
    intros v. apply runs_ret_bind.
    apply IH; [exact Hs| |exact Hk].
    apply nth_error_lt in Hkey, Hpar. unfold keys in Hkey.
    rewrite length_map in Hkey.
    split; [intros _; split; congruence|].
    split; [intros d' Hd'; rewrite Hdata in Hd'; inversion Hd'; subst; lia|].
    split; [intros ps' Hp'; rewrite Hparams in Hp'; inversion Hp'; subst; lia|].
    unfold progress_line in Hevs.
    split; [apply Hevs|].
    split.
    { rewrite Hevs, Hnext, length_app, <- Hev, Hn. simpl. lia. }
    rewrite !pick_app, Hpr, Hline, map_app, app_nil_r. reflexivity.
Qed.

End SurfaceRuns.

Section SurfaceOutcomes.

Context {T : LibTypes} {R : Runtime}.
Local Open Scope script_scope.

Lemma calculate_surface_runs parallel G :
  runs G [] (calculate_surface parallel)
       (fun vt g h => surface_returned parallel vt G h)
       (fun x g h => surface_failed parallel x G h).
Proof.
  unfold calculate_surface.
  apply runs_call.
  2:{ intros e. split; [exists (due parallel G); reflexivity|exact I]. }
  intros t0. cbn [app].
  apply runs_lookup. destruct (energies G) as [es|] eqn:Hes.
  2:{ split; [exists (due parallel G); reflexivity|].
      split; [reflexivity|]. left. auto. }
  unfold Py.enumerate.
  apply (runs_surface_loop (parallel := parallel) Hes); auto.
  - repeat split; try reflexivity; try lia; intros; lia.
  - intros vs H' (Hb & Hd & Hp & Hev & Hn & Hpr).
    assert (Hall : evaluated H' = due parallel G).
    { rewrite Hev. apply firstn_all2. now apply due_length. }
    apply runs_call.
    2:{ intros e. split; [|exact I].
        rewrite evaluated_app, app_nil_r, Hev. apply initial_segment_firstn. }
    intros t1. apply runs_print. apply runs_ret.
    exists es. split; [exact Hes|].
    rewrite !evaluated_app, !app_nil_r, !pick_app, Hpr.
    split; [exact Hall|]. split; [exact Hn|].
    cbn [pick flat_map printed app snd]. now rewrite app_nil_r.
Qed.

Lemma calculate_surface_outcome parallel (s : State) :
  match outcome (calculate_surface parallel s) with
  | Returned vt =>
      surface_returned parallel vt (globals s)
                       (events (calculate_surface parallel s))
  | Raised x =>
      surface_failed parallel x (globals s)
                     (events (calculate_surface parallel s))
  end.
Proof.
  destruct s as [g l]. exact (calculate_surface_runs parallel g l).
Qed.

(** X8. Of the names the script assigns, whatever they are bound to
    when it is called, [calculate_surface] finds only [energies],
    [data] or [params] missing: it raises [NameError] for one of them
    only when that name is unbound, and then before any evaluation is
    made.  (The imported [time] is bound in every namespace of the
    model.) *)
Theorem calculate_surface_name_error (parallel : bool) (s : State)
    (name : string) :
  outcome (calculate_surface parallel s) = Raised (NameError name) ->
  evaluated (events (calculate_surface parallel s)) = [] /\
  ((name = "energies" /\ energies (globals s) = None) \/
   (name = "data" /\ data (globals s) = None) \/
   (name = "params" /\ params (globals s) = None)).
Proof.
  intros H. pose proof (calculate_surface_outcome parallel s) as Ho.
  rewrite H in Ho. exact (proj2 Ho).
Qed.

(** X9. [calculate_surface] raises [IndexError] only when [data] or
    [params] has fewer entries than [energies]; the evaluations made
    before it are as many as the shorter of the two has entries. *)
Theorem calculate_surface_index_error (parallel : bool) (s : State) :
  outcome (calculate_surface parallel s) = Raised IndexError ->
  let n := List.length (evaluated (events (calculate_surface parallel s))) in
  exists es d,
    energies (globals s) = Some es /\ data (globals s) = Some d /\
    (n < List.length es)%nat /\
    match params (globals s) with
    | Some ps => n = Nat.min (List.length d) (List.length ps)
    | None => n = 0%nat /\ d = []
    end.
Proof.
  intros H n. subst n.
  pose proof (calculate_surface_outcome parallel s) as Ho.
  rewrite H in Ho. destruct Ho as (_ & es & d & He & Hd & Hlt & Hn).
  exists es, d. split; [exact He|]. split; [exact Hd|]. split; [exact Hlt|].
  destruct (params (globals s)); [exact Hn|].
  destruct Hn as (Hn & Hd0). now rewrite Hn.
Qed.

(** X10. When [energies], [data] and [params] are bound and [data] and
    [params] have at least as many entries as [energies],
    [calculate_surface] returns, unless a library call raises. *)
Theorem calculate_surface_completes (parallel : bool) (s : State)
    (es : list Cost) (d : list (float * string)) (ps : list Param) :
  energies (globals s) = Some es ->
  data (globals s) = Some d ->
  params (globals s) = Some ps ->
  (List.length es <= List.length d)%nat ->
  (List.length es <= List.length ps)%nat ->
  (exists v t, outcome (calculate_surface parallel s) = Returned (v, t)) \/
  (exists e, outcome (calculate_surface parallel s) = Raised (LibraryError e)).
Proof.
  intros He Hd Hp Hld Hlp.
  pose proof (calculate_surface_outcome parallel s) as Ho.
  destruct (outcome (calculate_surface parallel s)) as [[v t]|x].
  - left. eauto.
  - destruct x as [name| | |e].
    + exfalso. destruct Ho as (_ & _ & [(_ & Hn)|[(_ & Hn)|(_ & Hn)]]);
        congruence.
    + exfalso. destruct Ho as (_ & es' & d' & He' & Hd' & Hlt & Hn).
      rewrite Hp in Hn. rewrite He in He'. rewrite Hd in Hd'.
      inversion He'; inversion Hd'; subst. lia.
    + exfalso. exact (proj2 Ho).
    + right. eauto.
Qed.

(** X11. Whatever its outcome, the evaluations [calculate_surface] makes
    are [energies[i]] on [params[i]] with the flag it was given, for
    i = 0, 1, ... in order; when it returns, there is one for each cost
    object. *)
Theorem calculate_surface_evaluations (parallel : bool) (s : State) :
  initial_segment (evaluated (events (calculate_surface parallel s)))
                  (due parallel (globals s)) /\
  (forall v t,
      outcome (calculate_surface parallel s) = Returned (v, t) ->
      exists es,
        energies (globals s) = Some es /\
        evaluated (events (calculate_surface parallel s))
        = due parallel (globals s) /\
        List.length (evaluated (events (calculate_surface parallel s)))
        = List.length es).
Proof.
  pose proof (calculate_surface_outcome parallel s) as Ho. split.
  - destruct (outcome (calculate_surface parallel s)) as [vt|x].
    + destruct Ho as (es & _ & Hev & _). rewrite Hev. exists []. 
      now rewrite app_nil_r.
    + exact (proj1 Ho).
  - intros v t H. rewrite H in Ho. destruct Ho as (es & He & Hev & Hn & _).
    exists es. auto.
Qed.

(** X12. When [calculate_surface] returns, what it printed is one progress
    line for each cost object, the i-th naming the i-th key of [data],
    then the elapsed time it returns, with two decimals. *)
Theorem calculate_surface_console (parallel : bool) (s : State)
    (v : list Energy) (t : Q) :
  outcome (calculate_surface parallel s) = Returned (v, t) ->
  exists es,
    energies (globals s) = Some es /\
    pick printed (events (calculate_surface parallel s))
    = (map progress_line (firstn (List.length es) (separations (globals s)))
       ++ [("Evaluation time: " ++ Py.format_2f_Q t ++ " s")%string])%list.
Proof.
  intros H. pose proof (calculate_surface_outcome parallel s) as Ho.
  rewrite H in Ho. destruct Ho as (es & He & _ & _ & Hpr).
  exists es. split; [exact He|exact Hpr].
Qed.

(** C1. For identical inputs (equal [energies] and [params]), a call
    of [calculate_surface] with [parallel=False] and one with
    [parallel=True] that both return make the same evaluations, the
    same cost objects on the same parameters in the same order, and
    return lists of the same length; the two lists agree element by
    element within a tolerance [tol] whenever the engine is such that
    one evaluation [e(p, parallel=False)] and one evaluation
    [e(p, parallel=True)] agree within [tol], in whatever states of the
    library they are made. *)
Theorem sequential_parallel_agree (s s' : State) (v v' : list Energy)
    (t t' : Q) :
  energies (globals s) = energies (globals s') ->
  params (globals s) = params (globals s') ->
  outcome (calculate_surface false s) = Returned (v, t) ->
  outcome (calculate_surface true s') = Returned (v', t') ->
  List.length v = List.length v' /\
  map fst (evaluated (events (calculate_surface false s)))
  = map fst (evaluated (events (calculate_surface true s'))) /\
  forall tol : Energy -> Energy -> Prop,
    (forall e p l l' x x',
        fst (lib_call (cost_call e p false) l) = Returned x ->
        fst (lib_call (cost_call e p true) l') = Returned x' ->
        tol x x') ->
    Forall2 tol v v'.
Proof.
  intros He Hp H H'.
  pose proof (calculate_surface_outcome false s) as Ho.
  pose proof (calculate_surface_outcome true s') as Ho'.
  rewrite H in Ho. rewrite H' in Ho'.
  destruct Ho as (_ & _ & Hev & _). destruct Ho' as (_ & _ & Hev' & _).
  apply returns_run, calculate_surface_returns in H.
  apply returns_run, calculate_surface_returns in H'.
  destruct H as (es & rows & t0 & t1 & Hes & Hlen & Hv & _ & _ & _ & Hrows).
  destruct H' as (es' & rows' & t0' & t1' & Hes' & Hlen' & Hv' & _ & _ & _ & Hrows').
  assert (es' = es) by congruence. subst es' v v'.
  split; [rewrite !length_map; congruence|].
  split.
  { rewrite Hev, Hev'. unfold due. rewrite <- He, <- Hp, Hes.
    destruct (params (globals s)) as [ps|]; [|reflexivity].
    rewrite !map_map. reflexivity. }
  intros tol Htol.
  apply Forall2_nth_error.
  - rewrite !length_map. congruence.
  - intros i a b Ha Hb. rewrite nth_error_map in Ha, Hb.
    destruct (nth_error rows i) as [row|] eqn:Hr; [|discriminate].
    destruct (nth_error rows' i) as [row'|] eqn:Hr'; [|discriminate].
    inversion Ha; inversion Hb; subst.
    destruct (nth_error es i) as [e|] eqn:Hei.
    + destruct (Hrows i e row Hei Hr) as (_ & (ps & Hps & Hn) & (l & Hl)).
      destruct (Hrows' i e row' Hei Hr') as (_ & (ps' & Hps' & Hn') & (l' & Hl')).
      assert (ps' = ps) by congruence. subst ps'.
      assert (Hsame : row_param row' = row_param row) by congruence.
      rewrite Hsame in Hl'. exact (Htol _ _ _ _ _ _ Hl Hl').
    + apply nth_error_None in Hei.
      assert (Hs : nth_error rows i <> None) by congruence.
      apply nth_error_Some in Hs. lia.
Qed.

End SurfaceOutcomes.

(** ** The further theorems at the simulated runtimes *)

Lemma script_index_error_witness :
  outcome (script (start (R := Lab.runtime) Lab.short)) = Raised IndexError /\
  exists ps,
    pick loaded (events (script (start (R := Lab.runtime) Lab.short))) = [ps] /\
    (List.length ps < 10)%nat /\
    List.length (evaluated (events (script (start (R := Lab.runtime) Lab.short))))
    = List.length ps /\
    Forall (fun c => snd c = false)
           (evaluated (events (script (start (R := Lab.runtime) Lab.short)))) /\
    pick plotted (events (script (start (R := Lab.runtime) Lab.short))) = [] /\
    surface (globals (final (script (start (R := Lab.runtime) Lab.short))))
    = None.
Proof.
  split; [vm_compute; reflexivity|].
  apply (script_index_error (R := Lab.runtime) Lab.short).
  vm_compute; reflexivity.
Defined.

Lemma script_zero_division_witness :
  outcome (script (start (R := Lab.runtime) Lab.still))
  = Raised ZeroDivisionError /\
  exists t0 t1 t2 t3,
    pick clock_read (events (script (start (R := Lab.runtime) Lab.still)))
    = [t0; t1; t2; t3] /\
    Qeq_bool (t3 - t2) 0 = true /\
    List.length (evaluated (events (script (start (R := Lab.runtime) Lab.still))))
    = 20%nat /\
    pick plotted (events (script (start (R := Lab.runtime) Lab.still))) = [] /\
    t_par (globals (final (script (start (R := Lab.runtime) Lab.still))))
    = Some (t3 - t2)%Q /\
    surface (globals (final (script (start (R := Lab.runtime) Lab.still))))
    = Some (pick (energy_of true)
                 (events (script (start (R := Lab.runtime) Lab.still)))).
Proof.
  split; [vm_compute; reflexivity|].
  apply (script_zero_division (R := Lab.runtime) Lab.still).
  vm_compute; reflexivity.
Defined.

Lemma script_console_witness :
  outcome (script (start (R := Drift.runtime) Drift.timed)) = Returned tt /\
  (exists hs ts tp,
      hamiltonians (globals (final (script (start (R := Drift.runtime) Drift.timed))))
      = Some hs /\
      t_seq (globals (final (script (start (R := Drift.runtime) Drift.timed))))
      = Some ts /\
      t_par (globals (final (script (start (R := Drift.runtime) Drift.timed))))
      = Some tp /\
      pick printed (events (script (start (R := Drift.runtime) Drift.timed)))
      = transcript (map (n_ops (Runtime := Drift.runtime)) hs) ts tp) /\
  t_seq (globals (final (script (start (R := Drift.runtime) Drift.timed))))
  = Some 535%Q /\
  t_par (globals (final (script (start (R := Drift.runtime) Drift.timed))))
  = Some 200%Q /\
  last (pick printed (events (script (start (R := Drift.runtime) Drift.timed))))
       EmptyString
  = "Speedup: 2.67".
Proof.
  split; [vm_compute; reflexivity|].
  split.
  - apply (script_console (R := Drift.runtime) Drift.timed).
    vm_compute; reflexivity.
  - split; [vm_compute; reflexivity|].
    split; vm_compute; reflexivity.
Defined.

Lemma calculate_surface_name_error_witness :
  outcome (calculate_surface false (start (R := Sim.runtime) Sim.ready))
  = Raised (NameError (T := Sim.types) "energies") /\
  evaluated (events (calculate_surface false (start (R := Sim.runtime) Sim.ready)))
  = [] /\
  (("energies" = "energies" /\
    energies (globals (start (R := Sim.runtime) Sim.ready)) = None) \/
   ("energies" = "data" /\
    data (globals (start (R := Sim.runtime) Sim.ready)) = None) \/
   ("energies" = "params" /\
    params (globals (start (R := Sim.runtime) Sim.ready)) = None)).
Proof.
  split; [vm_compute; reflexivity|].
  apply (calculate_surface_name_error (R := Sim.runtime) false
           (start (R := Sim.runtime) Sim.ready)).
  vm_compute; reflexivity.
Defined.

Lemma calculate_surface_index_error_witness :
  outcome (calculate_surface true Lab.two_params) = Raised IndexError /\
  exists es d,
    energies (globals Lab.two_params) = Some es /\
    data (globals Lab.two_params) = Some d /\
    (List.length (evaluated (events (calculate_surface true Lab.two_params)))
     < List.length es)%nat /\
    match params (globals Lab.two_params) with
    | Some ps =>
        List.length (evaluated (events (calculate_surface true Lab.two_params)))
        = Nat.min (List.length d) (List.length ps)
    | None =>
        List.length (evaluated (events (calculate_surface true Lab.two_params)))
        = 0%nat /\ d = []
    end.
Proof.
  split; [vm_compute; reflexivity|].
  apply (calculate_surface_index_error (R := Sim.runtime) true Lab.two_params).
  vm_compute; reflexivity.
Defined.

Lemma calculate_surface_completes_witness :
  (exists v t, outcome (calculate_surface true Sim.prepared) = Returned (v, t)) \/
  (exists e, outcome (calculate_surface true Sim.prepared)
             = Raised (LibraryError e)).
Proof.
  apply (@calculate_surface_completes Sim.types Sim.runtime true Sim.prepared
           (map (fun kv => (snd kv, 15%nat)) data_dict)
           data_dict
           [11; 12; 13; 14; 15; 16; 17; 18; 19; 20]%Z);
    vm_compute; try reflexivity; lia.
Defined.

Lemma calculate_surface_console_witness :
  outcome (calculate_surface true Sim.prepared)
  = Returned
      ([10977; 11977; 12977; 13977; 14977; 15977; 16977; 17977; 18977; 19977]%Z,
       81%Q) /\
  exists es,
    energies (globals Sim.prepared) = Some es /\
    pick printed (events (calculate_surface true Sim.prepared))
    = (map progress_line
           (firstn (List.length es) (separations (globals Sim.prepared)))
       ++ ["Evaluation time: 81.00 s"])%list.
Proof.
  split; [vm_compute; reflexivity|].
  apply (calculate_surface_console (R := Sim.runtime) true Sim.prepared
           (v := [10977; 11977; 12977; 13977; 14977; 15977; 16977; 17977;
                  18977; 19977]%Z) (t := 81%Q)).
  vm_compute; reflexivity.
Defined.

(** ** The theorems at the runtime that depends on time *)

Lemma sequential_parallel_agree_witness :
  List.length
    [10976; 11976; 12976; 13976; 14976; 15976; 16976; 17976; 18976; 19976]%Z
  = List.length
      [10977; 11977; 12977; 13977; 14977; 15977; 16977; 17977; 18977; 19977]%Z /\
  map fst (evaluated (events (calculate_surface false Sim.prepared)))
  = map fst (evaluated (events (calculate_surface true Sim.prepared))) /\
  Forall2 Sim.close
    [10976; 11976; 12976; 13976; 14976; 15976; 16976; 17976; 18976; 19976]%Z
    [10977; 11977; 12977; 13977; 14977; 15977; 16977; 17977; 18977; 19977]%Z.
Proof.
  assert (Hs : outcome (calculate_surface false Sim.prepared)
               = Returned
                   ([10976; 11976; 12976; 13976; 14976; 15976; 16976; 17976;
                     18976; 19976]%Z, 151%Q))
    by (vm_compute; reflexivity).
  assert (Hp : outcome (calculate_surface true Sim.prepared)
               = Returned
                   ([10977; 11977; 12977; 13977; 14977; 15977; 16977; 17977;
                     18977; 19977]%Z, 81%Q))
    by (vm_compute; reflexivity).
  destruct (@sequential_parallel_agree Sim.types Sim.runtime
              Sim.prepared Sim.prepared _ _ _ _ eq_refl eq_refl Hs Hp)
    as (Hl & He & Ht).
  split; [exact Hl|]. split; [exact He|].
  exact (Ht Sim.close SimFacts.close_agree).
Defined.

(** With a device that drifts, the same cost objects on the same
    parameters, from the same state of the libraries, give two lists
    that differ by more than the tolerance from the second value on. *)
Lemma sequential_parallel_differ :
  exists v v' t t',
    outcome (calculate_surface false Drift.prepared) = Returned (v, t) /\
    outcome (calculate_surface true Drift.prepared) = Returned (v', t') /\
    List.length v = 10%nat /\ List.length v' = 10%nat /\
    ~ Forall2 Sim.close v v'.
Proof.
  do 4 eexists.
  split; [vm_compute; reflexivity|].
  split; [vm_compute; reflexivity|].
  split; [reflexivity|]. split; [reflexivity|].
  intros H. inversion H as [|a b l l' _ H1]; subst.
  inversion H1 as [|a' b' l1 l1' Hc _]; subst.
  unfold Sim.close in Hc. vm_compute in Hc. apply Hc. reflexivity.
Qed.



